(** * Expense tracker: a shallow embedding of [app.py] and its properties

    The Flask application keeps two tables ([User], [Expense]) and a
    session.  Every view function is embedded as a function from a
    request and the state of the application to a response and the new
    state.  Library routines the views call (werkzeug's password hashing,
    Python's [float], pandas' group reduction) are parameters of the
    development; everything the application itself computes is written
    out and evaluates. *)

From Stdlib Require Import PrimFloat.
From stdpp Require Import base list strings sorting.

Local Open Scope Z_scope.
Local Open Scope string_scope.

(** ** Dates *)

(** A [datetime] as Python has it; [Expense.date] holds one. *)
Record datetime := mkdatetime {
  year : Z; month : Z; day : Z;
  hour : Z; minute : Z; second : Z; microsecond : Z
}.

Definition dt_fields (d : datetime) : list Z :=
  [year d; month d; day d; hour d; minute d; second d; microsecond d].

(** Lexicographic comparison of the fields, which is how two datetimes
    (and two year-month periods) compare. *)
Fixpoint lex_compare (a b : list Z) : comparison :=
  match a, b with
  | [], [] => Eq
  | [], _ :: _ => Lt
  | _ :: _, [] => Gt
  | x :: a', y :: b' =>
      match Z.compare x y with
      | Eq => lex_compare a' b'
      | c => c
      end
  end.

Definition lex_le (a b : list Z) : Prop := lex_compare a b ≠ Gt.
Definition lex_lt (a b : list Z) : Prop := lex_compare a b = Lt.

Definition dt_le (a b : datetime) : Prop := lex_le (dt_fields a) (dt_fields b).

(** [pd.Series.dt.to_period('M')]: the calendar month of a date. *)
Definition period : Type := Z * Z.

Definition to_period_M (d : datetime) : period := (year d, month d).

Definition period_fields (p : period) : list Z := [p.1; p.2].
Definition period_le (p q : period) : Prop := lex_le (period_fields p) (period_fields q).
Definition period_lt (p q : period) : Prop := lex_lt (period_fields p) (period_fields q).

Definition digit (n : Z) : string :=
  String (Ascii.ascii_of_N (48 + Z.to_N (n `mod` 10))) EmptyString.

(** [str] of a monthly period: [YYYY-MM]. *)
Definition period_str (p : period) : string :=
  digit (p.1 / 1000) +:+ digit (p.1 / 100) +:+ digit (p.1 / 10) +:+ digit p.1
  +:+ "-" +:+ digit (p.2 / 10) +:+ digit p.2.

(** ** The two models *)

Module User.
Record t := mk {
  id : Z;
  username : string;
  password : string
}.
End User.

Module Expense.
Record t := mk {
  id : Z;
  description : string;
  amount : float;
  category : string;
  date : datetime;
  user_id : Z
}.
End Expense.

Global Instance datetime_eq_dec : EqDecision datetime.
Proof. solve_decision. Defined.

Global Instance user_eq_dec : EqDecision User.t.
Proof. solve_decision. Defined.

(** The database: rows in the order of their insertion. *)
Record database := mkdatabase {
  users : list User.t;
  expenses : list Expense.t
}.

(** What a view function can see and change: the database, the user id
    flask-login keeps in the session, and the flashed messages (message,
    category) waiting to be shown. *)
Record world := mkworld {
  db : database;
  session_user_id : option Z;
  flashes : list (string * string)
}.

Inductive http_method := GET | POST.

(** A request, with the two ambient values a view draws while serving
    it: the clock ([datetime.utcnow], the column default of
    [Expense.date]) and the salt [generate_password_hash] picks. *)
Record request := mkrequest {
  method : http_method;
  form : list (string * string);
  utcnow : datetime;
  salt : string
}.

(** ** Exceptions *)

Inductive exn :=
  | NotFound                          (* abort(404), from first_or_404 *)
  | BadRequestKeyError (key : string) (* request.form[key], key absent: 400 *)
  | ValueError                        (* float(text), text not a number *)
  | IntegrityError.                   (* a NOT NULL column would hold NULL *)

Inductive result (A : Type) :=
  | Ok (a : A)
  | Raise (e : exn).
Arguments Ok {A} a.
Arguments Raise {A} e.

Global Instance result_ret : MRet result := λ A a, Ok a.
Global Instance result_bind : MBind result := λ A B f m,
  match m with
  | Ok a => f a
  | Raise e => Raise e
  end.

(** The status code Flask answers with when a view raises. *)
Definition status_of (e : exn) : Z :=
  match e with
  | NotFound => 404
  | BadRequestKeyError _ => 400
  | ValueError => 500
  | IntegrityError => 500
  end.

(** ** Requests *)

(** [request.form.get(key)]: the first value sent under [key]. *)
Fixpoint form_get (key : string) (f : list (string * string)) : option string :=
  match f with
  | [] => None
  | (k, v) :: f' => if decide (k = key) then Some v else form_get key f'
  end.

(** [request.form[key]] *)
Definition form_item (key : string) (f : list (string * string)) : result string :=
  match form_get key f with
  | Some v => Ok v
  | None => Raise (BadRequestKeyError key)
  end.

(** Truth value of a Python string. *)
Definition truthy (s : string) : bool :=
  match s with
  | EmptyString => false
  | String _ _ => true
  end.

(** ** Queries *)

(** [User.query.filter_by(username=username).first()] *)
Definition user_by_username (name : string) (d : database) : option User.t :=
  head (filter (λ u, User.username u = name) (users d)).

(** [User.query.get(user_id)] *)
Definition user_by_id (uid : Z) (d : database) : option User.t :=
  head (filter (λ u, User.id u = uid) (users d)).

(** [Expense.query.filter_by(user_id=uid)] *)
Definition expenses_of (uid : Z) (d : database) : list Expense.t :=
  filter (λ e, Expense.user_id e = uid) (expenses d).

(** [Expense.query.filter_by(id=id, user_id=uid).first_or_404()] *)
Definition expense_or_404 (id uid : Z) (d : database) : result Expense.t :=
  match head (filter (λ e, Expense.id e = id ∧ Expense.user_id e = uid) (expenses d)) with
  | Some e => Ok e
  | None => Raise NotFound
  end.

(** The key a new row gets: one more than the largest in the table. *)
Definition next_id (ids : list Z) : Z := 1 + foldr Z.max 0 ids.

(** [load_user] applied to the id in the session: [current_user]. *)
Definition current_user (w : world) : option User.t :=
  uid ← session_user_id w; user_by_id uid (db w).

(** ** Responses *)

(** What is drawn on a chart. *)
Inductive chart :=
  | BarChart (categories : list string) (totals : list float)
  | PieChart (sizes : list float) (labels : list string)
  | LinePlot (months : list string) (values : list float).

(** [defaultdict(float)] keeps its keys in the order of their first
    insertion; [keys()], [values()] and [json.dumps] follow that order. *)
Definition dict : Type := list (string * float).

Inductive response :=
  | Redirect (endpoint : string)
  | RenderRegister
  | RenderLogin
  | RenderIndex
  | RenderAddExpense
  | RenderEditExpense (expense : Expense.t)
  | RenderViewExpenses (expenses : list Expense.t) (all_categories : list string)
      (current_filter : option string)
  | RenderSummary (pie_plot_url bar_plot_url time_series_plot_url : option chart)
      (has_expenses : bool) (category_totals_pie_json monthly_totals_json : dict)
  | HttpError (status : Z).

Definition flash (message category : string) (w : world) : world :=
  mkworld (db w) (session_user_id w) (flashes w ++ [(message, category)]).

(** A view that raises answers with the error status and leaves the
    world as it found it: nothing was committed. *)
Definition respond (w : world) (r : result (response * world)) : response * world :=
  match r with
  | Ok rw => rw
  | Raise e => (HttpError (status_of e), w)
  end.

(** [@login_required]: flask-login sends an anonymous visitor to
    [login_view] with its standard message. *)
Definition login_required (view : User.t → world → response * world) (w : world)
    : response * world :=
  match current_user w with
  | Some u => view u w
  | None => (Redirect "login", flash "Please log in to access this page." "message" w)
  end.

(** ** Reporting *)

(** [d[k] += x] on a [defaultdict(float)]: a missing key starts at [0.0]. *)
Fixpoint dict_add (k : string) (x : float) (d : dict) : dict :=
  match d with
  | [] => [(k, (0 + x)%float)]
  | (k', v) :: d' =>
      if decide (k' = k) then (k', (v + x)%float) :: d'
      else (k', v) :: dict_add k x d'
  end.


(** Category totals: the amounts added up under their categories, one
    expense after the other. *)
Definition category_totals (es : list Expense.t) : dict :=
  fold_left (λ d e, dict_add (Expense.category e) (Expense.amount e) d) es [].

Definition generate_category_bar_chart (es : list Expense.t) : option chart :=
  let category_totals :=
    fold_left (λ category_totals expense,
      dict_add (Expense.category expense) (Expense.amount expense) category_totals)
      es [] in
  match category_totals with
  | [] => None
  | _ => Some (BarChart category_totals.*1 category_totals.*2)
  end.

(** The pie chart [show_summary] draws from its own dictionary. *)
Definition pie_chart (category_totals_pie : dict) : option chart :=
  match category_totals_pie with
  | [] => None
  | _ => Some (PieChart category_totals_pie.*2 category_totals_pie.*1)
  end.

Global Instance lex_le_dec a b : Decision (lex_le a b).
Proof. unfold lex_le. apply _. Defined.

Global Instance period_le_dec p q : Decision (period_le p q).
Proof. unfold period_le. apply _. Defined.

Global Instance dt_le_dec a b : Decision (dt_le a b).
Proof. unfold dt_le. apply _. Defined.

Section Reporting.
(** pandas' sum of a float64 column within one group. *)
Variable series_sum : list float → float.

(** The rows of the data frame: one (date, amount) per expense, with
    the month column beside them. *)
Definition month_rows (es : list Expense.t) : list (period * float) :=
  (λ exp, (to_period_M (Expense.date exp), Expense.amount exp)) <$> es.

(** The amounts of one month, in row order. *)
Definition bucket (p : period) (rows : list (period * float)) : list float :=
  (filter (λ r, r.1 = p) rows).*2.

(** [df.groupby('month')['amount'].sum().sort_index()]: one entry per
    month that occurs, in ascending order of the months. *)
Definition monthly_totals (es : list Expense.t) : list (period * float) :=
  let rows := month_rows es in
  (λ p, (p, series_sum (bucket p rows))) <$> merge_sort period_le (remove_dups rows.*1).

Definition generate_time_series_plot_matplotlib (es : list Expense.t) : option chart :=
  match es with
  | [] => None
  | _ =>
      let monthly_totals := monthly_totals es in
      match monthly_totals with
      | [] => None
      | _ => Some (LinePlot (period_str <$> monthly_totals.*1) monthly_totals.*2)
      end
  end.
End Reporting.

(** ** Ordering rows and strings *)

(** [ORDER BY date DESC] *)
Definition date_desc (a b : Expense.t) : Prop :=
  dt_le (Expense.date b) (Expense.date a).

Global Instance date_desc_dec a b : Decision (date_desc a b).
Proof. unfold date_desc. apply _. Defined.

Definition order_by_date_desc (es : list Expense.t) : list Expense.t :=
  merge_sort date_desc es.

(** Python compares strings code point by code point, which on UTF-8
    text is the comparison of the bytes. *)
Fixpoint str_codes (s : string) : list Z :=
  match s with
  | EmptyString => []
  | String c s' => Z.of_N (Ascii.N_of_ascii c) :: str_codes s'
  end.

Definition str_le (a b : string) : Prop := lex_le (str_codes a) (str_codes b).
Definition str_lt (a b : string) : Prop := lex_lt (str_codes a) (str_codes b).

Global Instance str_le_dec a b : Decision (str_le a b).
Proof. unfold str_le. apply _. Defined.

(** [sorted(list(set(xs)))] on strings. *)
Definition sorted_set (xs : list string) : list string :=
  merge_sort str_le (remove_dups xs).

(** ** The views *)

Section Views.
(** werkzeug: [generate_password_hash] with the salt it drew, and
    [check_password_hash pwhash password]. *)
Variable generate_password_hash : string → string → string.
Variable check_password_hash : string → string → bool.
(** Python's [float] on a string; [None] when it raises [ValueError]. *)
Variable float_of_str : string → option float.
Variable series_sum : list float → float.

Definition to_float (text : string) : result float :=
  match float_of_str text with
  | Some x => Ok x
  | None => Raise ValueError
  end.

(** SQLite binds a NaN as NULL, and [Expense.amount] is NOT NULL. *)
Definition check_amount (x : float) : result unit :=
  if is_nan x then Raise IntegrityError else Ok ().

Definition set_db (d : database) (w : world) : world :=
  mkworld d (session_user_id w) (flashes w).

Definition register (req : request) (w : world) : response * world :=
  match method req with
  | POST => respond w (
      username ← form_item "username" (form req);
      password ← form_item "password" (form req);
      match user_by_username username (db w) with
      | Some _ =>
          mret (Redirect "register",
                flash "Username already exists. Please choose another one." "message" w)
      | None =>
          let hashed_password := generate_password_hash (salt req) password in
          let new_user :=
            User.mk (next_id (User.id <$> users (db w))) username hashed_password in
          let d := mkdatabase (users (db w) ++ [new_user]) (expenses (db w)) in
          mret (Redirect "login",
                flash "Registration successful! Please log in." "message" (set_db d w))
      end)
  | GET => (RenderRegister, w)
  end.

(** [login_user(user)] *)
Definition login_user (u : User.t) (w : world) : world :=
  mkworld (db w) (Some (User.id u)) (flashes w).

Definition login (req : request) (w : world) : response * world :=
  match method req with
  | POST => respond w (
      username ← form_item "username" (form req);
      password ← form_item "password" (form req);
      match user_by_username username (db w) with
      | Some user =>
          if check_password_hash (User.password user) password
          then mret (Redirect "index", login_user user w)
          else mret (Redirect "login", flash "Invalid username or password." "message" w)
      | None => mret (Redirect "login", flash "Invalid username or password." "message" w)
      end)
  | GET => (RenderLogin, w)
  end.

Definition logout (req : request) : world → response * world :=
  login_required (λ _ w, (Redirect "index", mkworld (db w) None (flashes w))).

Definition index (req : request) : world → response * world :=
  login_required (λ _ w, (RenderIndex, w)).

Definition add_expense (req : request) : world → response * world :=
  login_required (λ current_user w,
    match method req with
    | POST => respond w (
        description ← form_item "description" (form req);
        text ← form_item "amount" (form req);
        amount ← to_float text;
        category ← form_item "category" (form req);
        let new_expense :=
          Expense.mk (next_id (Expense.id <$> expenses (db w))) description amount
            category (utcnow req) (User.id current_user) in
        _ ← check_amount amount;
        let d := mkdatabase (users (db w)) (expenses (db w) ++ [new_expense]) in
        mret (Redirect "view_expenses", set_db d w))
    | GET => (RenderAddExpense, w)
    end).

(** The UPDATE a commit issues for an edited row: by primary key. *)
Definition update_expense (e' : Expense.t) (d : database) : database :=
  mkdatabase (users d)
    ((λ r, if decide (Expense.id r = Expense.id e') then e' else r) <$> expenses d).

(** The DELETE a commit issues for a deleted row: by primary key. *)
Definition remove_expense (e : Expense.t) (d : database) : database :=
  mkdatabase (users d) (filter (λ r, Expense.id r ≠ Expense.id e) (expenses d)).

Definition edit_expense (id : Z) (req : request) : world → response * world :=
  login_required (λ current_user w, respond w (
    expense_to_edit ← expense_or_404 id (User.id current_user) (db w);
    match method req with
    | POST =>
        description ← form_item "description" (form req);
        text ← form_item "amount" (form req);
        amount ← to_float text;
        category ← form_item "category" (form req);
        let edited :=
          Expense.mk (Expense.id expense_to_edit) description amount category
            (Expense.date expense_to_edit) (Expense.user_id expense_to_edit) in
        _ ← check_amount amount;
        mret (Redirect "view_expenses",
              flash "Expense updated successfully!" "success"
                (set_db (update_expense edited (db w)) w))
    | GET => mret (RenderEditExpense expense_to_edit, w)
    end)).

Definition view_expenses (req : request) : world → response * world :=
  login_required (λ current_user w,
    let category_filter := form_get "category_filter" (form req) in
    let owned := expenses_of (User.id current_user) (db w) in
    let selected :=
      match category_filter with
      | Some c =>
          if truthy c && bool_decide (c ≠ "all")
          then filter (λ e, Expense.category e = c) owned
          else owned
      | None => owned
      end in
    let expenses := order_by_date_desc selected in
    let all_categories := Expense.category <$> owned in
    let all_categories := sorted_set all_categories in
    let all_categories := "all" :: all_categories in
    (RenderViewExpenses expenses all_categories category_filter, w)).

Definition delete_expense (id : Z) (req : request) : world → response * world :=
  login_required (λ current_user w, respond w (
    expense_to_delete ← expense_or_404 id (User.id current_user) (db w);
    mret (Redirect "view_expenses",
          flash "Expense deleted successfully!" "success"
            (set_db (remove_expense expense_to_delete (db w)) w)))).

Definition show_summary (req : request) : world → response * world :=
  login_required (λ current_user w,
    let expenses := expenses_of (User.id current_user) (db w) in
    let category_totals_pie :=
      fold_left (λ category_totals_pie expense,
        dict_add (Expense.category expense) (Expense.amount expense)
          category_totals_pie) expenses [] in
    let pie_plot_url := pie_chart category_totals_pie in
    let bar_plot_url := generate_category_bar_chart expenses in
    let time_series_plot_url := generate_time_series_plot_matplotlib series_sum expenses in
    (RenderSummary pie_plot_url bar_plot_url time_series_plot_url
       (bool_decide (expenses ≠ [])) category_totals_pie [], w)).

(** The URL map: one route per view function; [<int:id>] matches the
    non-negative integers. *)
Inductive route :=
  | register_route
  | login_route
  | logout_route
  | index_route
  | add_expense_route
  | edit_expense_route (id : N)
  | view_expenses_route
  | delete_expense_route (id : N)
  | summary_route.

(** The methods a route is registered for: GET, and POST where the
    decorator lists it. *)
Definition allows (r : route) (m : http_method) : bool :=
  match m with
  | GET => true
  | POST =>
      match r with
      | register_route | login_route | add_expense_route
      | edit_expense_route _ | view_expenses_route => true
      | logout_route | index_route | delete_expense_route _ | summary_route => false
      end
  end.

(** Flask answers 405 itself when the method is not one of the route's,
    and calls the view otherwise. *)
Definition dispatch (r : route) (req : request) (w : world) : response * world :=
  if allows r (method req) then
    match r with
    | register_route => register req w
    | login_route => login req w
    | logout_route => logout req w
    | index_route => index req w
    | add_expense_route => add_expense req w
    | edit_expense_route id => edit_expense (Z.of_N id) req w
    | view_expenses_route => view_expenses req w
    | delete_expense_route id => delete_expense (Z.of_N id) req w
    | summary_route => show_summary req w
    end
  else (HttpError 405, w).
End Views.

(** The routes of the expense management and reporting views. *)
Definition expense_route (r : route) : bool :=
  match r with
  | add_expense_route | edit_expense_route _ | view_expenses_route
  | delete_expense_route _ | summary_route => true
  | _ => false
  end.

(** ** Constraints and outcomes *)

(** The primary key of [Expense]: no two rows share an id. *)
Definition primary_key (d : database) : Prop := NoDup (Expense.id <$> expenses d).

(** [User.username] is declared unique. *)
Definition unique_usernames (d : database) : Prop := NoDup (User.username <$> users d).

(** The two ways a login and a registration are turned down. *)
Definition invalid_credentials (w : world) : response * world :=
  (Redirect "login", flash "Invalid username or password." "message" w).

Definition duplicate_username (w : world) : response * world :=
  (Redirect "register",
   flash "Username already exists. Please choose another one." "message" w).


(** ** Reference reductions and sample data *)

(** Left-to-right accumulation from [0.0]. *)
Definition plain_sum (xs : list float) : float :=
  fold_left PrimFloat.add xs 0%float.

(** Compensated (Kahan) accumulation, the reduction pandas uses within a
    group: the running sum and the running compensation. *)
Definition kahan_step (acc : float * float) (x : float) : float * float :=
  let y := (x - acc.2)%float in
  let t := (acc.1 + y)%float in
  (t, (t - acc.1 - y)%float).

Definition kahan_sum (xs : list float) : float :=
  (fold_left kahan_step xs (0%float, 0%float)).1.


(** The amounts of the expenses of one month, in row order. *)
Definition amounts_of_month (p : period) (es : list Expense.t) : list float :=
  Expense.amount <$> filter (λ e, to_period_M (Expense.date e) = p) es.


Definition dated (y m d : Z) (amount : float) (e : Expense.t) : Expense.t :=
  let t := Expense.date e in
  Expense.mk (Expense.id e) (Expense.description e) amount (Expense.category e)
    (mkdatetime y m d (hour t) (minute t) (second t) (microsecond t))
    (Expense.user_id e).

(** Two users and their expenses. *)
Definition alice : User.t := User.mk 1 "alice" "stored-hash-of-alice".
Definition bob : User.t := User.mk 2 "bob" "stored-hash-of-bob".

Definition lunch : Expense.t :=
  Expense.mk 1 "lunch" 10 "food" (mkdatetime 2024 1 5 12 30 0 0) 1.
Definition bus : Expense.t :=
  Expense.mk 2 "bus" 3.25 "transport" (mkdatetime 2024 2 1 8 15 0 0) 1.
Definition rent : Expense.t :=
  Expense.mk 3 "rent" 500 "housing" (mkdatetime 2024 2 1 9 0 0 0) 2.

Definition sample_db : database := mkdatabase [alice; bob] [lunch; bus; rent].

(** Alice is logged in; nobody is. *)
Definition as_alice : world := mkworld sample_db (Some 1) [].
Definition anonymous : world := mkworld sample_db None [].

Definition noon : datetime := mkdatetime 2024 3 1 12 0 0 0.
Definition post (f : list (string * string)) : request := mkrequest POST f noon "c2FsdA".
Definition get : request := mkrequest GET [] noon "c2FsdA".

(** Stand-ins for the library routines, to run the views on the sample:
    a hash that tags the salted password, and a [float] that knows two
    numerals. *)
Definition toy_hash (salt password : string) : string := salt +:+ "$" +:+ password.
Definition toy_check (pwhash password : string) : bool :=
  bool_decide (pwhash = "stored-hash-of-" +:+ password).
Definition toy_float (text : string) : option float :=
  if decide (text = "12.5") then Some 12.5%float
  else if decide (text = "nan") then Some nan
  else None.


(** ** Further constraints and stand-ins *)

(** The primary key of [User]: no two users share an id. *)
Definition user_key (d : database) : Prop := NoDup (User.id <$> users d).

(** The routes whose view is wrapped in [@login_required]. *)
Definition protected (r : route) : bool :=
  match r with
  | register_route | login_route => false
  | _ => true
  end.

(** A stand-in hash that [toy_check] accepts for the password it was
    made from. *)
Definition tag_hash (salt password : string) : string :=
  "stored-hash-of-" +:+ password.

(** The row [add_expense] builds from a form. *)
Definition new_expense (w : world) (u : User.t) (req : request)
    (description : string) (amount : float) (category : string) : Expense.t :=
  Expense.mk (next_id (Expense.id <$> expenses (db w))) description amount category
    (utcnow req) (User.id u).

(** The user [register] builds from a form. *)
Definition new_user (generate_password_hash : string → string → string)
    (w : world) (req : request) (username password : string) : User.t :=
  User.mk (next_id (User.id <$> users (db w))) username
    (generate_password_hash (salt req) password).

(** * Properties *)

(** ** The lexicographic order *)

Lemma lex_compare_refl a : lex_compare a a = Eq.
Proof. induction a as [|x a IH]; simpl; [done|]. by rewrite Z.compare_refl. Qed.

Lemma lex_compare_eq a b : lex_compare a b = Eq → a = b.
Proof.
  revert b. induction a as [|x a IH]; intros [|y b]; simpl; try done.
  destruct (Z.compare_spec x y) as [Hxy|Hxy|Hxy]; try done.
  intros Hab. f_equal; [done | by apply IH].
Qed.

Lemma lex_compare_antisym a b : lex_compare b a = CompOpp (lex_compare a b).
Proof.
  revert b. induction a as [|x a IH]; intros [|y b]; simpl; try done.
  rewrite (Z.compare_antisym x y).
  destruct (Z.compare x y); simpl; auto.
Qed.

Lemma lex_lt_trans a b c : lex_lt a b → lex_lt b c → lex_lt a c.
Proof.
  unfold lex_lt. revert b c.
  induction a as [|x a IH]; intros [|y b] [|z c]; simpl; try done.
  destruct (Z.compare_spec x y) as [->|Hxy|Hxy]; try done.
  - destruct (Z.compare y z); try done. apply IH.
  - destruct (Z.compare_spec y z) as [->|Hyz|Hyz]; try done; intros _ _.
    + by rewrite (proj2 (Z.compare_lt_iff x z)).
    + rewrite (proj2 (Z.compare_lt_iff x z)); [done|lia].
Qed.

Lemma lex_lt_irrefl a : ¬ lex_lt a a.
Proof. unfold lex_lt. by rewrite lex_compare_refl. Qed.

Lemma lex_le_lt_or_eq a b : lex_le a b ↔ lex_lt a b ∨ a = b.
Proof.
  unfold lex_le, lex_lt. split.
  - destruct (lex_compare a b) eqn:E; [|by left|done].
    right. by apply lex_compare_eq.
  - intros [->| ->]; [done|]. by rewrite lex_compare_refl.
Qed.

Global Instance lex_le_total : Total lex_le.
Proof.
  intros a b. unfold lex_le. rewrite (lex_compare_antisym a b).
  destruct (lex_compare a b); simpl; auto.
Qed.

Global Instance lex_le_trans : Transitive lex_le.
Proof.
  intros a b c. rewrite !lex_le_lt_or_eq.
  intros [H1| ->] [H2| ->]; eauto using lex_lt_trans.
Qed.

Global Instance lex_le_antisymm : AntiSymm (=) lex_le.
Proof.
  intros a b. rewrite !lex_le_lt_or_eq. intros [H1|H1] [H2|H2]; try done.
  destruct (lex_lt_irrefl a). eauto using lex_lt_trans.
Qed.

Lemma str_codes_inj a b : str_codes a = str_codes b → a = b.
Proof.
  revert b. induction a as [|c a IH]; intros [|c' b]; simpl; try done.
  intros [= H1 H2]. f_equal; [|by apply IH].
  apply N2Z.inj in H1.
  by rewrite <- (Ascii.ascii_N_embedding c), <- (Ascii.ascii_N_embedding c'), H1.
Qed.

Global Instance str_le_total : Total str_le.
Proof. intros a b. apply lex_le_total. Qed.

Global Instance str_le_trans : Transitive str_le.
Proof. intros a b c. apply lex_le_trans. Qed.

Global Instance period_le_total : Total period_le.
Proof. intros a b. apply lex_le_total. Qed.

Global Instance period_le_trans : Transitive period_le.
Proof. intros a b c. apply lex_le_trans. Qed.

Lemma period_fields_inj p q : period_fields p = period_fields q → p = q.
Proof. destruct p, q. unfold period_fields. simpl. by intros [= -> ->]. Qed.

(** A list sorted for a total order and free of duplicates is strictly
    sorted. *)
Lemma sorted_nodup_strict {A} (key : A → list Z) (l : list A) :
  (∀ x y, key x = key y → x = y) →
  StronglySorted (λ x y, lex_le (key x) (key y)) l →
  NoDup l →
  StronglySorted (λ x y, lex_lt (key x) (key y)) l.
Proof.
  intros Hinj Hs. induction Hs as [|x l Hs IH Hx]; intros Hnd; [constructor|].
  apply NoDup_cons in Hnd as [Hnotin Hnd].
  constructor; [by apply IH|].
  rewrite Forall_forall in Hx |- *. intros y Hy.
  destruct (proj1 (lex_le_lt_or_eq _ _) (Hx y Hy)) as [?|Heq]; [done|].
  apply Hinj in Heq as ->. done.
Qed.

(** ** Category totals *)







(** ** Monthly totals *)

Section MonthlyTotals.
Variable series_sum : list float → float.

Lemma bucket_month_rows p es : bucket p (month_rows es) = amounts_of_month p es.
Proof.
  unfold bucket, month_rows, amounts_of_month.
  induction es as [|e es IH]; [done|]. csimpl.
  rewrite !filter_cons. simpl.
  destruct (decide (to_period_M (Expense.date e) = p)); csimpl; by rewrite IH.
Qed.

Lemma month_rows_keys es :
  (month_rows es).*1 = (λ e, to_period_M (Expense.date e)) <$> es.
Proof. unfold month_rows. by rewrite <- list_fmap_compose. Qed.

Lemma monthly_totals_keys es :
  (monthly_totals series_sum es).*1
  = merge_sort period_le (remove_dups (month_rows es).*1).
Proof.
  unfold monthly_totals. rewrite <- list_fmap_compose.
  apply list_fmap_id.
Qed.

Lemma monthly_totals_keys_elem es p :
  p ∈ (monthly_totals series_sum es).*1
  ↔ ∃ e, e ∈ es ∧ to_period_M (Expense.date e) = p.
Proof.
  rewrite monthly_totals_keys, merge_sort_Permutation, elem_of_remove_dups.
  rewrite month_rows_keys, list_elem_of_fmap. split.
  - intros (e & -> & He). by exists e.
  - intros (e & He & <-). by exists e.
Qed.

Lemma monthly_totals_ascending es :
  StronglySorted period_lt (monthly_totals series_sum es).*1.
Proof.
  rewrite monthly_totals_keys.
  apply (sorted_nodup_strict period_fields).
  - apply period_fields_inj.
  - apply (StronglySorted_merge_sort period_le).
  - rewrite merge_sort_Permutation. apply NoDup_remove_dups.
Qed.

Lemma monthly_totals_elem es p v :
  (p, v) ∈ monthly_totals series_sum es
  ↔ (∃ e, e ∈ es ∧ to_period_M (Expense.date e) = p)
    ∧ v = series_sum (amounts_of_month p es).
Proof.
  rewrite <- monthly_totals_keys_elem, monthly_totals_keys.
  unfold monthly_totals. rewrite list_elem_of_fmap. split.
  - intros (q & [= -> ->] & Hq). by rewrite bucket_month_rows.
  - intros [Hp ->]. exists p. by rewrite bucket_month_rows.
Qed.
End MonthlyTotals.

(** C7: the monthly totals have one bucket per calendar month (year and
    month) in which an expense is dated, holding the reduction of the
    amounts of the expenses of that month, and the buckets are in strictly
    ascending order of the months.  With a reduction that adds 10 and 20
    to 30 and leaves 5 as it is, expenses of 2024-01-05 (10) and
    2024-01-28 (20) give the single bucket 2024-01 = 30, and one more of
    2024-02-01 (5) gives the buckets 2024-01 = 30, 2024-02 = 5, plotted
    under these labels in this order. *)
Theorem monthly_totals_by_calendar_month (series_sum : list float → float)
    (Hsum2 : series_sum [10%float; 20%float] = 30%float)
    (Hsum1 : series_sum [5%float] = 5%float) :
  (∀ es, StronglySorted period_lt (monthly_totals series_sum es).*1)
  ∧ (∀ es p v,
       (p, v) ∈ monthly_totals series_sum es
       ↔ (∃ e, e ∈ es ∧ (year (Expense.date e), month (Expense.date e)) = p)
         ∧ v = series_sum (amounts_of_month p es))
  ∧ (∀ e1 e2,
       monthly_totals series_sum [dated 2024 1 5 10 e1; dated 2024 1 28 20 e2]
       = [((2024, 1), 30%float)])
  ∧ (∀ e1 e2 e3,
       monthly_totals series_sum
         [dated 2024 1 5 10 e1; dated 2024 1 28 20 e2; dated 2024 2 1 5 e3]
       = [((2024, 1), 30%float); ((2024, 2), 5%float)])
  ∧ (∀ e1 e2 e3,
       generate_time_series_plot_matplotlib series_sum
         [dated 2024 1 5 10 e1; dated 2024 1 28 20 e2; dated 2024 2 1 5 e3]
       = Some (LinePlot ["2024-01"; "2024-02"] [30%float; 5%float])).
Proof.
  assert (∀ e1 e2 e3,
    monthly_totals series_sum
      [dated 2024 1 5 10 e1; dated 2024 1 28 20 e2; dated 2024 2 1 5 e3]
    = [((2024, 1), 30%float); ((2024, 2), 5%float)]) as Hthree.
  { intros e1 e2 e3. rewrite <- Hsum2. rewrite <- Hsum1 at 2.
    vm_compute. reflexivity. }
  split_and!.
  - apply monthly_totals_ascending.
  - apply monthly_totals_elem.
  - intros e1 e2. rewrite <- Hsum2. vm_compute. reflexivity.
  - apply Hthree.
  - intros e1 e2 e3. unfold generate_time_series_plot_matplotlib.
    rewrite Hthree. vm_compute. reflexivity.
Qed.

(** The compensated reduction meets the two sums asked of it, and so does
    plain accumulation. *)
Lemma monthly_totals_by_calendar_month_witness :
  generate_time_series_plot_matplotlib kahan_sum
    [dated 2024 1 5 10 lunch; dated 2024 1 28 20 bus; dated 2024 2 1 5 rent]
  = Some (LinePlot ["2024-01"; "2024-02"] [30%float; 5%float]).
Proof.
  apply (monthly_totals_by_calendar_month kahan_sum); vm_compute; reflexivity.
Defined.

Lemma plain_sum_sample :
  plain_sum [10%float; 20%float] = 30%float ∧ plain_sum [5%float] = 5%float.
Proof. split; vm_compute; reflexivity. Qed.

(** ** Listing *)

Global Instance date_desc_total : Total date_desc.
Proof. intros a b. apply lex_le_total. Qed.

Global Instance date_desc_trans : Transitive date_desc.
Proof. intros a b c Hab Hbc. unfold date_desc, dt_le in *. by etransitivity. Qed.

Lemma order_by_date_desc_sorted es : StronglySorted date_desc (order_by_date_desc es).
Proof. apply (StronglySorted_merge_sort date_desc). Qed.

Lemma order_by_date_desc_perm es : order_by_date_desc es ≡ₚ es.
Proof. apply merge_sort_Permutation. Qed.

Lemma sorted_set_ascending xs : StronglySorted str_lt (sorted_set xs).
Proof.
  unfold sorted_set. apply (sorted_nodup_strict str_codes).
  - apply str_codes_inj.
  - apply (StronglySorted_merge_sort str_le).
  - rewrite merge_sort_Permutation. apply NoDup_remove_dups.
Qed.

Lemma elem_of_sorted_set xs x : x ∈ sorted_set xs ↔ x ∈ xs.
Proof. unfold sorted_set. by rewrite merge_sort_Permutation, elem_of_remove_dups. Qed.

Lemma login_required_authenticated view w u :
  current_user w = Some u → login_required view w = view u w.
Proof. unfold login_required. by intros ->. Qed.

Lemma truthy_spec c : truthy c = true ↔ c ≠ "".
Proof. by destruct c. Qed.

(** C5, as the code has it: the listing shows the expenses of the current
    user, latest date first; a category filter that is present, not empty
    and not "all" restricts it to the expenses of that category, while an
    absent filter, "all" and the empty string leave the full owned set;
    the categories offered are "all" followed by the distinct categories
    of the user's expenses in ascending order. *)
Theorem view_expenses_lists_owned req w u :
  current_user w = Some u →
  ∃ es cats,
    view_expenses req w
    = (RenderViewExpenses es ("all" :: cats) (form_get "category_filter" (form req)), w)
    ∧ StronglySorted date_desc es
    ∧ (∀ c, form_get "category_filter" (form req) = Some c → c ≠ "" → c ≠ "all" →
         es ≡ₚ filter (λ e, Expense.category e = c ∧ Expense.user_id e = User.id u)
                 (expenses (db w)))
    ∧ (form_get "category_filter" (form req) = None
       ∨ form_get "category_filter" (form req) = Some "all"
       ∨ form_get "category_filter" (form req) = Some "" →
         es ≡ₚ filter (λ e, Expense.user_id e = User.id u) (expenses (db w)))
    ∧ StronglySorted str_lt cats
    ∧ (∀ c, c ∈ cats
         ↔ ∃ e, e ∈ expenses (db w) ∧ Expense.user_id e = User.id u
                ∧ Expense.category e = c).
Proof.
  intros Hu. unfold view_expenses. rewrite (login_required_authenticated _ _ _ Hu).
  eexists _, _. split; [reflexivity|]. split_and!.
  - apply order_by_date_desc_sorted.
  - intros c -> Hne Hall. rewrite order_by_date_desc_perm.
    rewrite (proj2 (truthy_spec c) Hne), bool_decide_eq_true_2 by done. simpl.
    unfold expenses_of. by rewrite list_filter_filter.
  - intros [-> | [-> | ->]]; by rewrite order_by_date_desc_perm.
  - apply sorted_set_ascending.
  - intros c. rewrite elem_of_sorted_set, list_elem_of_fmap. unfold expenses_of.
    split.
    + intros (e & -> & He). apply list_elem_of_filter in He as [? ?]. by exists e.
    + intros (e & He & Hown & <-). exists e. split; [done|].
      by apply list_elem_of_filter.
Qed.

Lemma view_expenses_lists_owned_witness :
  ∃ es cats,
    view_expenses (post [("category_filter", "food")]) as_alice
    = (RenderViewExpenses es ("all" :: cats) (Some "food"), as_alice)
    ∧ es ≡ₚ [lunch].
Proof.
  destruct (view_expenses_lists_owned (post [("category_filter", "food")]) as_alice alice)
    as (es & cats & Hview & _ & Hfilter & _); [reflexivity|].
  exists es, cats. split; [exact Hview|].
  apply (Hfilter "food"); [reflexivity|discriminate|discriminate].
Defined.

(** C5 as stated fails on a filter that is present but empty: it is not
    "all", yet the listing is not restricted to the category "". *)
Lemma view_expenses_empty_filter_not_restricted :
  form_get "category_filter" (form (post [("category_filter", "")])) = Some ""
  ∧ "" ≠ "all"
  ∧ view_expenses (post [("category_filter", "")]) as_alice
    = (RenderViewExpenses [bus; lunch] ["all"; "food"; "transport"] (Some ""), as_alice)
  ∧ Expense.category bus ≠ "".
Proof. split_and!; [reflexivity|discriminate|vm_compute; reflexivity|discriminate]. Qed.

(** ** Owner-scoped lookup *)

Lemma NoDup_fmap_inj_on {A B} (f : A → B) (l : list A) x y :
  NoDup (f <$> l) → x ∈ l → y ∈ l → f x = f y → x = y.
Proof.
  induction l as [|a l IH]; csimpl; [by intros _ Hx; apply elem_of_nil in Hx|].
  rewrite NoDup_cons, !elem_of_cons, list_elem_of_fmap.
  intros [Hnotin Hnd] [->|Hx] [->|Hy] Heq; auto.
  - destruct Hnotin. by exists y.
  - destruct Hnotin. by exists x.
Qed.

Lemma head_filter_None {A} (P : A → Prop) `{!∀ x, Decision (P x)} (l : list A) :
  head (filter P l) = None ↔ ∀ x, x ∈ l → ¬ P x.
Proof.
  rewrite head_None. split.
  - intros Hnil x Hx HP. by eapply filter_nil_not_elem_of.
  - intros Hall. induction l as [|a l IH]; [done|].
    rewrite filter_cons_False; [|apply Hall; by left].
    apply IH. intros x Hx. apply Hall. by right.
Qed.

Lemma head_filter_elem {A} (P : A → Prop) `{!∀ x, Decision (P x)} (l : list A) x :
  head (filter P l) = Some x → x ∈ l ∧ P x.
Proof.
  intros Hhd. apply head_Some in Hhd as [l' Hl'].
  assert (x ∈ filter P l) as Hx by (rewrite Hl'; by left).
  apply list_elem_of_filter in Hx. tauto.
Qed.

Lemma expense_or_404_Ok id uid d e :
  expense_or_404 id uid d = Ok e →
  e ∈ expenses d ∧ Expense.id e = id ∧ Expense.user_id e = uid.
Proof.
  unfold expense_or_404.
  destruct (head _) as [e'|] eqn:Hhd; [|done]. intros [= ->].
  apply head_filter_elem in Hhd. tauto.
Qed.

Lemma expense_or_404_owned d e :
  primary_key d → e ∈ expenses d →
  expense_or_404 (Expense.id e) (Expense.user_id e) d = Ok e.
Proof.
  intros Hpk He. unfold expense_or_404.
  destruct (head _) as [e'|] eqn:Hhd.
  - apply head_filter_elem in Hhd as [He' [Hid _]].
    f_equal. by apply (NoDup_fmap_inj_on Expense.id (expenses d)).
  - destruct (proj1 (head_filter_None _ _) Hhd e He). done.
Qed.

Lemma expense_or_404_NotFound id uid d :
  (∀ e, e ∈ expenses d → Expense.id e = id → Expense.user_id e ≠ uid) →
  expense_or_404 id uid d = Raise NotFound.
Proof.
  intros Hnone. unfold expense_or_404.
  destruct (head _) as [e'|] eqn:Hhd; [|done].
  apply head_filter_elem in Hhd as [He' [Hid Hown]]. by destruct (Hnone e' He' Hid).
Qed.

Lemma expense_or_404_not_owned d e uid :
  primary_key d → e ∈ expenses d → Expense.user_id e ≠ uid →
  expense_or_404 (Expense.id e) uid d = Raise NotFound.
Proof.
  intros Hpk He Hne. apply expense_or_404_NotFound. intros e' He' Hid.
  by rewrite (NoDup_fmap_inj_on Expense.id (expenses d) e' e Hpk He' He Hid).
Qed.

Lemma current_user_set_db d w :
  users d = users (db w) → current_user (set_db d w) = current_user w.
Proof.
  unfold current_user, set_db, user_by_id. simpl. by intros ->.
Qed.

Section NotFound.
Variable generate_password_hash : string → string → string.
Variable check_password_hash : string → string → bool.
Variable float_of_str : string → option float.
Variable series_sum : list float → float.

(** C1: an expense the current user does not own cannot be edited or
    deleted: both views answer 404 and change nothing, whatever the
    request, exactly as they do for an id no expense has (here, the same
    table with that row taken out).  The same holds through the URL map,
    where the answers with and without the row coincide. *)
Theorem foreign_expense_not_found (w : world) (u : User.t) (e : Expense.t)
    (req : request) :
  current_user w = Some u →
  primary_key (db w) →
  e ∈ expenses (db w) →
  Expense.user_id e ≠ User.id u →
  let absent := set_db (remove_expense e (db w)) w in
  let serve := dispatch generate_password_hash check_password_hash float_of_str
                 series_sum in
  edit_expense float_of_str (Expense.id e) req w = (HttpError 404, w)
  ∧ delete_expense (Expense.id e) req w = (HttpError 404, w)
  ∧ edit_expense float_of_str (Expense.id e) req absent = (HttpError 404, absent)
  ∧ delete_expense (Expense.id e) req absent = (HttpError 404, absent)
  ∧ (∀ id : N, Z.of_N id = Expense.id e →
       serve (edit_expense_route id) req w = (HttpError 404, w)
       ∧ (method req = GET →
            serve (delete_expense_route id) req w = (HttpError 404, w))
       ∧ fst (serve (edit_expense_route id) req absent)
         = fst (serve (edit_expense_route id) req w)
       ∧ fst (serve (delete_expense_route id) req absent)
         = fst (serve (delete_expense_route id) req w)).
Proof.
  intros Hu Hpk He Hne absent serve.
  assert (current_user absent = Some u) as Hu'.
  { unfold absent. by rewrite current_user_set_db. }
  assert (expense_or_404 (Expense.id e) (User.id u) (db absent) = Raise NotFound)
    as Habsent.
  { apply expense_or_404_NotFound. simpl. intros e' He' Hid.
    apply list_elem_of_filter in He' as [Hid' _]. done. }
  assert (∀ req, edit_expense float_of_str (Expense.id e) req w = (HttpError 404, w))
    as Hedit.
  { intros req'. unfold edit_expense.
    rewrite (login_required_authenticated _ _ _ Hu).
    by rewrite (expense_or_404_not_owned _ _ _ Hpk He Hne). }
  assert (∀ req, delete_expense (Expense.id e) req w = (HttpError 404, w)) as Hdelete.
  { intros req'. unfold delete_expense.
    rewrite (login_required_authenticated _ _ _ Hu).
    by rewrite (expense_or_404_not_owned _ _ _ Hpk He Hne). }
  assert (∀ req, edit_expense float_of_str (Expense.id e) req absent
                 = (HttpError 404, absent)) as Hedit'.
  { intros req'. unfold edit_expense.
    rewrite (login_required_authenticated _ _ _ Hu'). by rewrite Habsent. }
  assert (∀ req, delete_expense (Expense.id e) req absent = (HttpError 404, absent))
    as Hdelete'.
  { intros req'. unfold delete_expense.
    rewrite (login_required_authenticated _ _ _ Hu'). by rewrite Habsent. }
  split_and!; try done.
  intros id Hid. unfold serve, dispatch. rewrite Hid. simpl.
  rewrite Hedit, Hedit', Hdelete, Hdelete'.
  split_and!.
  - by destruct (method req).
  - by intros ->.
  - by destruct (method req).
  - by destruct (method req).
Qed.
End NotFound.

Lemma foreign_expense_not_found_witness :
  edit_expense toy_float 3
    (post [("description", "mine"); ("amount", "12.5"); ("category", "food")]) as_alice
  = (HttpError 404, as_alice)
  ∧ delete_expense 3 get as_alice = (HttpError 404, as_alice).
Proof.
  assert (rent ∈ expenses (db as_alice)) as Hrent.
  { unfold as_alice, sample_db. simpl. rewrite !elem_of_cons. auto. }
  split.
  - apply (foreign_expense_not_found toy_hash toy_check toy_float kahan_sum
             as_alice alice rent);
      [reflexivity | compute_done | exact Hrent | discriminate].
  - apply (foreign_expense_not_found toy_hash toy_check toy_float kahan_sum
             as_alice alice rent get);
      [reflexivity | compute_done | exact Hrent | discriminate].
Defined.

(** ** Registration and login *)

Lemma user_by_username_Some name d u :
  user_by_username name d = Some u → u ∈ users d ∧ User.username u = name.
Proof. intros Hfind. by apply head_filter_elem in Hfind. Qed.

Lemma user_by_username_None name d :
  user_by_username name d = None ↔ ∀ u, u ∈ users d → User.username u ≠ name.
Proof. apply head_filter_None. Qed.


Lemma form_item_Some key f v : form_get key f = Some v → form_item key f = Ok v.
Proof. unfold form_item. by intros ->. Qed.

Section Authentication.
Variable generate_password_hash : string → string → string.
Variable check_password_hash : string → string → bool.

Lemma login_post req w username password :
  method req = POST →
  form_get "username" (form req) = Some username →
  form_get "password" (form req) = Some password →
  login check_password_hash req w =
    match user_by_username username (db w) with
    | Some user =>
        if check_password_hash (User.password user) password
        then (Redirect "index", login_user user w)
        else invalid_credentials w
    | None => invalid_credentials w
    end.
Proof.
  intros Hm Hu Hp. unfold login.
  rewrite Hm, (form_item_Some _ _ _ Hu), (form_item_Some _ _ _ Hp). simpl.
  destruct (user_by_username username (db w)) as [user|]; [|done].
  by destruct (check_password_hash _ _).
Qed.

End Authentication.


Section Registration.
Variable generate_password_hash : string → string → string.

Lemma register_post req w username password :
  method req = POST →
  form_get "username" (form req) = Some username →
  form_get "password" (form req) = Some password →
  register generate_password_hash req w =
    match user_by_username username (db w) with
    | Some _ => duplicate_username w
    | None =>
        (Redirect "login",
         flash "Registration successful! Please log in." "message"
           (set_db
              (mkdatabase
                 (users (db w) ++
                    [User.mk (next_id (User.id <$> users (db w))) username
                       (generate_password_hash (salt req) password)])
                 (expenses (db w))) w))
    end.
Proof.
  intros Hm Hu Hp. unfold register.
  rewrite Hm, (form_item_Some _ _ _ Hu), (form_item_Some _ _ _ Hp). simpl.
  by destruct (user_by_username username (db w)).
Qed.

Lemma user_by_username_app name us us' es :
  user_by_username name (mkdatabase (us ++ us') es) =
    match user_by_username name (mkdatabase us es) with
    | Some u => Some u
    | None => user_by_username name (mkdatabase us' es)
    end.
Proof.
  unfold user_by_username. simpl. rewrite filter_app.
  by destruct (filter _ us).
Qed.

(** After a registration request for a name, a user of that name exists,
    whether the request created it or found it. *)
Lemma register_registers req w username password :
  method req = POST →
  form_get "username" (form req) = Some username →
  form_get "password" (form req) = Some password →
  is_Some (user_by_username username (db (snd (register generate_password_hash req w)))).
Proof.
  intros Hm Hu Hp. rewrite (register_post _ _ _ _ Hm Hu Hp).
  destruct (user_by_username username (db w)) as [u|] eqn:Hfind; simpl.
  - rewrite Hfind. by eexists.
  - destruct (db w) as [us es]. simpl in *.
    rewrite user_by_username_app, Hfind.
    unfold user_by_username. simpl. rewrite filter_cons_True by done. by eexists.
Qed.

(** C3: registering a name that is already taken is turned down with the
    duplicate-username notice and leaves the database as it was: no user
    is added and the stored hash of the account is not touched.  This is
    what happens to every second registration of a name, whatever the
    first one did and whatever the two passwords are. *)
Theorem register_duplicate_username (w : world) (req req' : request)
    (username password password' : string) :
  method req = POST →
  form_get "username" (form req) = Some username →
  form_get "password" (form req) = Some password →
  method req' = POST →
  form_get "username" (form req') = Some username →
  form_get "password" (form req') = Some password' →
  let first := snd (register generate_password_hash req w) in
  let second := register generate_password_hash req' first in
  second = duplicate_username first
  ∧ db (snd second) = db first
  ∧ user_by_username username (db (snd second)) = user_by_username username (db first)
  ∧ ((∃ u, u ∈ users (db w) ∧ User.username u = username) →
       register generate_password_hash req w = duplicate_username w
       ∧ db first = db w).
Proof.
  intros Hm Hu Hp Hm' Hu' Hp' first second.
  assert (second = duplicate_username first) as Hsecond.
  { unfold second. rewrite (register_post _ _ _ _ Hm' Hu' Hp').
    destruct (register_registers req w _ _ Hm Hu Hp) as [u Hfound].
    fold first in Hfound. by rewrite Hfound. }
  rewrite Hsecond. split_and!; try done.
  intros (u & Hin & Hname). unfold first.
  rewrite (register_post _ _ _ _ Hm Hu Hp).
  destruct (user_by_username username (db w)) as [u'|] eqn:Hfind; [done|].
  by destruct (proj1 (user_by_username_None _ _) Hfind u Hin).
Qed.
End Registration.

Lemma register_duplicate_username_witness :
  register toy_hash (post [("username", "carol"); ("password", "second")])
    (snd (register toy_hash (post [("username", "carol"); ("password", "first")])
            anonymous))
  = duplicate_username
      (snd (register toy_hash (post [("username", "carol"); ("password", "first")])
              anonymous)).
Proof.
  apply (register_duplicate_username toy_hash anonymous
    (post [("username", "carol"); ("password", "first")])
    (post [("username", "carol"); ("password", "second")])
    "carol" "first" "second"); reflexivity.
Defined.

(** ** Adding and editing *)

Lemma fmap_id_on {A} (f : A → A) (l : list A) :
  (∀ x, x ∈ l → f x = x) → f <$> l = l.
Proof.
  induction l as [|a l IH]; intros Hf; csimpl; [done|].
  rewrite Hf by (by left). f_equal. apply IH. intros x Hx. apply Hf. by right.
Qed.

Lemma update_by_key_same (e : Expense.t) (l : list Expense.t) :
  NoDup (Expense.id <$> l) → e ∈ l →
  (λ r, if decide (Expense.id r = Expense.id e) then e else r) <$> l = l.
Proof.
  intros Hpk He. apply fmap_id_on. intros r Hr.
  destruct (decide (Expense.id r = Expense.id e)) as [Hid|]; [|done].
  symmetry. by apply (NoDup_fmap_inj_on Expense.id l).
Qed.

Section Editing.
Variable float_of_str : string → option float.

Lemma edit_expense_post w u e req description text category amount :
  current_user w = Some u → primary_key (db w) → e ∈ expenses (db w) →
  Expense.user_id e = User.id u →
  method req = POST →
  form_get "description" (form req) = Some description →
  form_get "amount" (form req) = Some text →
  form_get "category" (form req) = Some category →
  float_of_str text = Some amount →
  is_nan amount = false →
  edit_expense float_of_str (Expense.id e) req w =
    (Redirect "view_expenses",
     flash "Expense updated successfully!" "success"
       (set_db
          (update_expense
             (Expense.mk (Expense.id e) description amount category
                (Expense.date e) (Expense.user_id e)) (db w)) w)).
Proof.
  intros Hu Hpk He Hown Hm Hd Ha Hc Hparse Hnan. unfold edit_expense.
  rewrite (login_required_authenticated _ _ _ Hu), <- Hown.
  rewrite (expense_or_404_owned _ _ Hpk He). simpl.
  rewrite Hm, (form_item_Some _ _ _ Hd), (form_item_Some _ _ _ Ha). simpl.
  unfold to_float. rewrite Hparse. simpl.
  rewrite (form_item_Some _ _ _ Hc). simpl.
  unfold check_amount. by rewrite Hnan.
Qed.

(** Whatever the request, an edit of an owned expense is either a
    well-formed POST, or commits nothing. *)
Lemma edit_expense_outcomes w u e req :
  current_user w = Some u → primary_key (db w) → e ∈ expenses (db w) →
  Expense.user_id e = User.id u →
  (∃ description text category amount,
     method req = POST
     ∧ form_get "description" (form req) = Some description
     ∧ form_get "amount" (form req) = Some text
     ∧ form_get "category" (form req) = Some category
     ∧ float_of_str text = Some amount
     ∧ is_nan amount = false)
  ∨ (snd (edit_expense float_of_str (Expense.id e) req w) = w
     ∧ fst (edit_expense float_of_str (Expense.id e) req w) ≠ Redirect "view_expenses").
Proof.
  intros Hu Hpk He Hown. unfold edit_expense.
  rewrite (login_required_authenticated _ _ _ Hu), <- Hown.
  rewrite (expense_or_404_owned _ _ Hpk He). simpl.
  destruct (method req); [by right|].
  unfold form_item, to_float, check_amount.
  destruct (form_get "description" (form req)) as [description|]; [|by right]. simpl.
  destruct (form_get "amount" (form req)) as [text|]; [|by right]. simpl.
  destruct (float_of_str text) as [amount|] eqn:Hparse; [|by right]. simpl.
  destruct (form_get "category" (form req)) as [category|]; [|by right]. simpl.
  destruct (is_nan amount) eqn:Hnan; [by right|].
  left. exists description, text, category, amount. by rewrite Hparse.
Qed.

(** C4: an edit of an expense the current user owns leaves every other
    row, and the users, as they were, and puts in place of the expense a
    row with the same id, date and owner; after a well-formed POST that
    row carries the description, amount and category of the form, and
    when the edit does not go through the row is the old one. *)
Theorem edit_expense_keeps_id_date_owner (w : world) (u : User.t) (e : Expense.t)
    (req : request) :
  current_user w = Some u →
  primary_key (db w) →
  e ∈ expenses (db w) →
  Expense.user_id e = User.id u →
  let outcome := edit_expense float_of_str (Expense.id e) req w in
  ∃ e',
    expenses (db (snd outcome))
    = (λ r, if decide (Expense.id r = Expense.id e) then e' else r) <$> expenses (db w)
    ∧ users (db (snd outcome)) = users (db w)
    ∧ Expense.id e' = Expense.id e
    ∧ Expense.date e' = Expense.date e
    ∧ Expense.user_id e' = Expense.user_id e
    ∧ (∀ description text category amount,
         method req = POST →
         form_get "description" (form req) = Some description →
         form_get "amount" (form req) = Some text →
         form_get "category" (form req) = Some category →
         float_of_str text = Some amount →
         is_nan amount = false →
         fst outcome = Redirect "view_expenses"
         ∧ e' = Expense.mk (Expense.id e) description amount category
                  (Expense.date e) (Expense.user_id e))
    ∧ (fst outcome ≠ Redirect "view_expenses" → e' = e).
Proof.
  intros Hu Hpk He Hown outcome.
  destruct (edit_expense_outcomes w u e req Hu Hpk He Hown)
    as [(description & text & category & amount & Hm & Hd & Ha & Hc & Hparse & Hnan)
       | [Hsame Hresp]].
  - exists (Expense.mk (Expense.id e) description amount category
              (Expense.date e) (Expense.user_id e)).
    unfold outcome.
    rewrite (edit_expense_post w u e req _ _ _ _ Hu Hpk He Hown Hm Hd Ha Hc
               Hparse Hnan).
    simpl. split_and!; try done.
    intros description' text' category' amount' _ Hd' Ha' Hc' Hparse' _.
    split; [done|].
    assert (text' = text) as -> by congruence.
    assert (amount' = amount) as -> by congruence.
    congruence.
  - exists e. unfold outcome. rewrite Hsame. split_and!; try done.
    + symmetry. by apply update_by_key_same.
    + intros description text category amount Hm Hd Ha Hc Hparse Hnan.
      destruct Hresp.
      by rewrite (edit_expense_post w u e req _ _ _ _ Hu Hpk He Hown Hm Hd Ha Hc
                    Hparse Hnan).
Qed.

(** C8, as the code has it: when [float] rejects the amount text of a new
    expense, the [ValueError] is not handled: the request ends in a
    server error (status 500), with no notice flashed, no redirect and no
    expense stored. *)
Theorem add_expense_unparseable_amount (w : world) (u : User.t) (req : request)
    (description text : string) :
  current_user w = Some u →
  method req = POST →
  form_get "description" (form req) = Some description →
  form_get "amount" (form req) = Some text →
  float_of_str text = None →
  add_expense float_of_str req w = (HttpError 500, w).
Proof.
  intros Hu Hm Hd Ha Hparse. unfold add_expense.
  rewrite (login_required_authenticated _ _ _ Hu), Hm.
  rewrite (form_item_Some _ _ _ Hd), (form_item_Some _ _ _ Ha). simpl.
  unfold to_float. by rewrite Hparse.
Qed.
End Editing.

Lemma edit_expense_keeps_id_date_owner_witness :
  ∃ e',
    expenses (db (snd (edit_expense toy_float 1
      (post [("description", "brunch"); ("amount", "12.5"); ("category", "eating out")])
      as_alice)))
    = [e'; bus; rent]
    ∧ e' = Expense.mk 1 "brunch" 12.5 "eating out" (Expense.date lunch) 1.
Proof.
  destruct (edit_expense_keeps_id_date_owner toy_float as_alice alice lunch
    (post [("description", "brunch"); ("amount", "12.5"); ("category", "eating out")]))
    as (e' & Hrows & _ & _ & _ & _ & Hform & _);
    [reflexivity | compute_done | | reflexivity | ].
  - unfold as_alice, sample_db. simpl. rewrite !elem_of_cons. auto.
  - exists e'. split; [exact Hrows|].
    apply (Hform "brunch" "12.5" "eating out" 12.5%float); reflexivity.
Defined.

Lemma add_expense_unparseable_amount_witness :
  add_expense toy_float
    (post [("description", "tea"); ("amount", "abc"); ("category", "food")]) as_alice
  = (HttpError 500, as_alice).
Proof.
  apply (add_expense_unparseable_amount toy_float as_alice alice _ "tea" "abc");
    reflexivity.
Defined.

(** C8 as stated fails: with the amount text "abc", which [float]
    rejects, the view does not redirect, with a notice or without; it
    answers with the server error and flashes nothing. *)
Lemma add_expense_unparseable_amount_not_redirected :
  ¬ ∃ float_of_str endpoint w',
      float_of_str "abc" = None
      ∧ add_expense float_of_str
          (post [("description", "tea"); ("amount", "abc"); ("category", "food")])
          as_alice
        = (Redirect endpoint, w').
Proof.
  intros (float_of_str & endpoint & w' & Hparse & Hadd).
  vm_compute in Hadd. rewrite Hparse in Hadd. discriminate.
Qed.

(** ** The summary *)



(** ** Isolation between users *)

Lemma filter_fmap_on {A} (P : A → Prop) `{!∀ x, Decision (P x)} (f : A → A)
    (l : list A) :
  (∀ x, x ∈ l → P (f x) ↔ P x) → filter P (f <$> l) = f <$> filter P l.
Proof.
  induction l as [|a l IH]; intros Hf; [done|]. csimpl.
  rewrite !filter_cons.
  assert (filter P (f <$> l) = f <$> filter P l) as ->.
  { apply IH. intros x Hx. apply Hf. by right. }
  destruct (decide (P a)) as [Ha|Ha], (decide (P (f a))) as [Hfa|Hfa]; try done.
  - destruct Hfa. apply Hf; [by left|done].
  - destruct Ha. apply Hf; [by left|done].
Qed.

Lemma filter_filter_on {A} (P Q : A → Prop) `{!∀ x, Decision (P x)}
    `{!∀ x, Decision (Q x)} (l : list A) :
  (∀ x, x ∈ l → P x → Q x) → filter P (filter Q l) = filter P l.
Proof.
  induction l as [|a l IH]; intros HPQ; [done|].
  rewrite !filter_cons.
  assert (filter P (filter Q l) = filter P l) as IH'.
  { apply IH. intros x Hx. apply HPQ. by right. }
  destruct (decide (Q a)) as [Ha|Ha].
  - rewrite filter_cons, IH'. done.
  - rewrite IH'. destruct (decide (P a)) as [HPa|]; [|done].
    destruct Ha. apply HPQ; [by left|done].
Qed.

Lemma expense_or_404_scoped id uid d :
  expense_or_404 id uid d
  = match head (filter (λ e, Expense.id e = id) (expenses_of uid d)) with
    | Some e => Ok e
    | None => Raise NotFound
    end.
Proof. unfold expense_or_404, expenses_of. by rewrite list_filter_filter. Qed.

(** Rows of another owner are untouched by an update or a delete by key. *)
Lemma expenses_of_update_other d e e' v :
  primary_key d → e ∈ expenses d →
  Expense.id e' = Expense.id e → Expense.user_id e' = Expense.user_id e →
  v ≠ Expense.user_id e →
  expenses_of v (update_expense e' d) = expenses_of v d.
Proof.
  intros Hpk He Hid Hown Hv. unfold expenses_of, update_expense. simpl.
  rewrite filter_fmap_on.
  - apply fmap_id_on. intros r Hr. apply list_elem_of_filter in Hr as [Hrv Hr].
    destruct (decide (Expense.id r = Expense.id e')) as [Heq|]; [|done].
    rewrite Hid in Heq.
    rewrite (NoDup_fmap_inj_on Expense.id (expenses d) r e Hpk Hr He Heq) in Hrv.
    congruence.
  - intros r Hr. destruct (decide (Expense.id r = Expense.id e')) as [Heq|]; [|done].
    rewrite Hid in Heq.
    rewrite (NoDup_fmap_inj_on Expense.id (expenses d) r e Hpk Hr He Heq).
    rewrite Hown. done.
Qed.

Lemma expenses_of_update_own d e e' :
  primary_key d → e ∈ expenses d →
  Expense.id e' = Expense.id e → Expense.user_id e' = Expense.user_id e →
  expenses_of (Expense.user_id e) (update_expense e' d)
  = (λ r, if decide (Expense.id r = Expense.id e') then e' else r)
      <$> expenses_of (Expense.user_id e) d.
Proof.
  intros Hpk He Hid Hown. unfold expenses_of, update_expense. simpl.
  apply filter_fmap_on. intros r Hr.
  destruct (decide (Expense.id r = Expense.id e')) as [Heq|]; [|done].
  rewrite Hid in Heq.
  rewrite (NoDup_fmap_inj_on Expense.id (expenses d) r e Hpk Hr He Heq).
  by rewrite Hown.
Qed.

Lemma expenses_of_remove_other d e v :
  primary_key d → e ∈ expenses d → v ≠ Expense.user_id e →
  expenses_of v (remove_expense e d) = expenses_of v d.
Proof.
  intros Hpk He Hv. unfold expenses_of, remove_expense. simpl.
  apply filter_filter_on. intros r Hr Hrv Heq.
  rewrite (NoDup_fmap_inj_on Expense.id (expenses d) r e Hpk Hr He Heq) in Hrv.
  congruence.
Qed.

Lemma expenses_of_remove_own d e uid :
  expenses_of uid (remove_expense e d)
  = filter (λ r, Expense.id r ≠ Expense.id e) (expenses_of uid d).
Proof.
  unfold expenses_of, remove_expense. simpl. rewrite !list_filter_filter.
  apply list_filter_iff. tauto.
Qed.

Lemma expenses_of_insert d e v :
  expenses_of v (mkdatabase (users d) (expenses d ++ [e]))
  = (expenses_of v d ++ if decide (Expense.user_id e = v) then [e] else [])%list.
Proof. unfold expenses_of. simpl. by rewrite filter_app. Qed.

Ltac open_view Hu :=
  rewrite ?(login_required_authenticated _ _ _ Hu);
  unfold form_item, to_float, check_amount, respond; simpl.

(** Follow a view through the method, the form fields, the parse of the
    amount and the commit, closing the branches that end by themselves. *)
Ltac walk_form parse :=
  unfold form_item, to_float, check_amount, respond; simpl;
  repeat match goal with
  | |- context [method ?r] => destruct (method r); simpl; try done
  | |- context [form_get ?k ?f] => destruct (form_get k f); simpl; try done
  | |- context [parse ?t] => destruct (parse t); simpl; try done
  | |- context [is_nan ?x] => destruct (is_nan x); simpl; try done
  end.

Section Isolation.
Variable generate_password_hash : string → string → string.
Variable check_password_hash : string → string → bool.
Variable float_of_str : string → option float.
Variable series_sum : list float → float.

Lemma add_expense_other req w u v :
  current_user w = Some u → v ≠ User.id u →
  expenses_of v (db (snd (add_expense float_of_str req w))) = expenses_of v (db w).
Proof.
  intros Hu Hv. unfold add_expense. open_view Hu.
  walk_form float_of_str.
  rewrite expenses_of_insert. simpl.
  rewrite decide_False by done. apply app_nil_r.
Qed.

Lemma add_expense_response req w w2 u :
  current_user w = Some u → current_user w2 = Some u →
  fst (add_expense float_of_str req w2) = fst (add_expense float_of_str req w).
Proof.
  intros Hu Hu2. unfold add_expense.
  rewrite (login_required_authenticated _ _ _ Hu).
  rewrite (login_required_authenticated _ _ _ Hu2).
  unfold form_item, to_float, check_amount, respond. simpl.
  walk_form float_of_str.
Qed.

Lemma edit_expense_other id req w u v :
  current_user w = Some u → primary_key (db w) → v ≠ User.id u →
  expenses_of v (db (snd (edit_expense float_of_str id req w))) = expenses_of v (db w).
Proof.
  intros Hu Hpk Hv. unfold edit_expense. open_view Hu.
  destruct (expense_or_404 id (User.id u) (db w)) as [e|] eqn:Hfind; simpl; [|done].
  apply expense_or_404_Ok in Hfind as (He & Hid & Hown).
  walk_form float_of_str.
  apply (expenses_of_update_other _ e); try done. congruence.
Qed.

Lemma edit_expense_own id req w w2 u :
  current_user w = Some u → primary_key (db w) →
  current_user w2 = Some u → primary_key (db w2) →
  expenses_of (User.id u) (db w2) = expenses_of (User.id u) (db w) →
  fst (edit_expense float_of_str id req w2) = fst (edit_expense float_of_str id req w)
  ∧ expenses_of (User.id u) (db (snd (edit_expense float_of_str id req w2)))
    = expenses_of (User.id u) (db (snd (edit_expense float_of_str id req w))).
Proof.
  intros Hu Hpk Hu2 Hpk2 Hsame. unfold edit_expense.
  rewrite (login_required_authenticated _ _ _ Hu).
  rewrite (login_required_authenticated _ _ _ Hu2).
  assert (expense_or_404 id (User.id u) (db w2) = expense_or_404 id (User.id u) (db w))
    as Hfind2 by (by rewrite !expense_or_404_scoped, Hsame).
  rewrite Hfind2.
  unfold form_item, to_float, check_amount, respond. simpl.
  destruct (expense_or_404 id (User.id u) (db w)) as [e|] eqn:Hfind; simpl; [|done].
  apply expense_or_404_Ok in Hfind2 as (He2 & _ & _).
  apply expense_or_404_Ok in Hfind as (He & Hid & Hown).
  walk_form float_of_str.
  split; [done|]. rewrite <- Hown.
  rewrite !(expenses_of_update_own _ e) by done.
  by rewrite Hown, Hsame.
Qed.

Lemma delete_expense_other id req w u v :
  current_user w = Some u → primary_key (db w) → v ≠ User.id u →
  expenses_of v (db (snd (delete_expense id req w))) = expenses_of v (db w).
Proof.
  intros Hu Hpk Hv. unfold delete_expense. open_view Hu.
  destruct (expense_or_404 id (User.id u) (db w)) as [e|] eqn:Hfind; simpl; [|done].
  apply expense_or_404_Ok in Hfind as (He & Hid & Hown).
  apply expenses_of_remove_other; try done. congruence.
Qed.

Lemma delete_expense_own id req w w2 u :
  current_user w = Some u → current_user w2 = Some u →
  expenses_of (User.id u) (db w2) = expenses_of (User.id u) (db w) →
  fst (delete_expense id req w2) = fst (delete_expense id req w)
  ∧ expenses_of (User.id u) (db (snd (delete_expense id req w2)))
    = expenses_of (User.id u) (db (snd (delete_expense id req w))).
Proof.
  intros Hu Hu2 Hsame. unfold delete_expense.
  rewrite (login_required_authenticated _ _ _ Hu).
  rewrite (login_required_authenticated _ _ _ Hu2).
  rewrite !expense_or_404_scoped, Hsame. unfold respond.
  destruct (head _) as [e|]; simpl; [|done].
  by rewrite !expenses_of_remove_own, Hsame.
Qed.

Lemma view_expenses_own req w w2 u :
  current_user w = Some u → current_user w2 = Some u →
  expenses_of (User.id u) (db w2) = expenses_of (User.id u) (db w) →
  fst (view_expenses req w2) = fst (view_expenses req w)
  ∧ snd (view_expenses req w) = w.
Proof.
  intros Hu Hu2 Hsame. unfold view_expenses.
  rewrite (login_required_authenticated _ _ _ Hu).
  rewrite (login_required_authenticated _ _ _ Hu2).
  by rewrite Hsame.
Qed.

Lemma show_summary_own req w w2 u :
  current_user w = Some u → current_user w2 = Some u →
  expenses_of (User.id u) (db w2) = expenses_of (User.id u) (db w) →
  fst (show_summary series_sum req w2) = fst (show_summary series_sum req w)
  ∧ snd (show_summary series_sum req w) = w.
Proof.
  intros Hu Hu2 Hsame. unfold show_summary.
  rewrite (login_required_authenticated _ _ _ Hu).
  rewrite (login_required_authenticated _ _ _ Hu2).
  by rewrite Hsame.
Qed.

(** C10: while a user is logged in, no expense view touches a row of
    another user: for every other owner the rows are the same after the
    request as before.  What the views answer is decided by the rows of
    the current user alone: on two databases that agree on these rows the
    response is the same, and so are the user's rows afterwards (for a
    new expense, up to the key the database gives it). *)
Theorem expense_views_scoped_to_owner (r : route) (req : request) (w : world)
    (u : User.t) :
  expense_route r = true →
  current_user w = Some u →
  primary_key (db w) →
  let serve := dispatch generate_password_hash check_password_hash float_of_str
                 series_sum r req in
  (∀ v, v ≠ User.id u → expenses_of v (db (snd (serve w))) = expenses_of v (db w))
  ∧ (∀ w2,
       current_user w2 = Some u →
       primary_key (db w2) →
       expenses_of (User.id u) (db w2) = expenses_of (User.id u) (db w) →
       fst (serve w2) = fst (serve w)
       ∧ (r ≠ add_expense_route →
            expenses_of (User.id u) (db (snd (serve w2)))
            = expenses_of (User.id u) (db (snd (serve w))))).
Proof.
  intros Hr Hu Hpk serve. unfold serve, dispatch.
  destruct (allows r (method req)); simpl;
    [|by split; [|intros w2 _ _ Hsame; split; [|intros _]]].
  destruct r as [| | | | |id| |id|]; try discriminate Hr; split.
  - intros v Hv. by apply (add_expense_other _ _ u).
  - intros w2 Hu2 _ _. split; [by apply (add_expense_response _ _ _ u)|done].
  - intros v Hv. by apply (edit_expense_other _ _ _ u).
  - intros w2 Hu2 Hpk2 Hsame.
    destruct (edit_expense_own (Z.of_N id) req w w2 u Hu Hpk Hu2 Hpk2 Hsame). auto.
  - intros v Hv. by rewrite (proj2 (view_expenses_own req w w u Hu Hu eq_refl)).
  - intros w2 Hu2 _ Hsame.
    destruct (view_expenses_own req w w2 u Hu Hu2 Hsame) as [Hresp Hw].
    destruct (view_expenses_own req w2 w u Hu2 Hu (eq_sym Hsame)) as [_ Hw2].
    by rewrite Hresp, Hw, Hw2.
  - intros v Hv. by apply (delete_expense_other _ _ _ u).
  - intros w2 Hu2 _ Hsame.
    destruct (delete_expense_own (Z.of_N id) req w w2 u Hu Hu2 Hsame). auto.
  - intros v Hv. by rewrite (proj2 (show_summary_own req w w u Hu Hu eq_refl)).
  - intros w2 Hu2 _ Hsame.
    destruct (show_summary_own req w w2 u Hu Hu2 Hsame) as [Hresp Hw].
    destruct (show_summary_own req w2 w u Hu2 Hu (eq_sym Hsame)) as [_ Hw2].
    by rewrite Hresp, Hw, Hw2.
Qed.
End Isolation.

Lemma expense_views_scoped_to_owner_witness :
  expenses_of 2
    (db (snd (dispatch toy_hash toy_check toy_float kahan_sum
                (delete_expense_route 1) get as_alice)))
  = [rent].
Proof.
  apply (expense_views_scoped_to_owner toy_hash toy_check toy_float kahan_sum
    (delete_expense_route 1) get as_alice alice);
    [reflexivity | reflexivity | compute_done | discriminate].
Defined.

(** ** The constraints are invariants *)

Lemma next_id_above ids x : x ∈ ids → x < next_id ids.
Proof.
  unfold next_id. induction ids as [|y ids IH]; simpl.
  - by intros Hx; apply elem_of_nil in Hx.
  - rewrite elem_of_cons. intros [->|Hx]; [lia|]. specialize (IH Hx). lia.
Qed.

Lemma next_id_fresh ids : NoDup ids → NoDup (ids ++ [next_id ids]).
Proof.
  intros Hnd. apply NoDup_app. split_and!; [done| |apply NoDup_singleton].
  intros x Hx Hx'. apply list_elem_of_singleton in Hx' as ->.
  apply next_id_above in Hx. lia.
Qed.

Lemma update_expense_ids e' d :
  Expense.id <$> expenses (update_expense e' d) = Expense.id <$> expenses d.
Proof.
  unfold update_expense. simpl. rewrite <- list_fmap_compose.
  apply list_fmap_ext. intros i r _. simpl.
  by destruct (decide (Expense.id r = Expense.id e')).
Qed.

Lemma remove_expense_primary_key e d :
  primary_key d → primary_key (remove_expense e d).
Proof.
  unfold primary_key, remove_expense. simpl. intros Hpk.
  apply (sublist_NoDup _ _ Hpk), fmap_sublist, sublist_filter.
Qed.

Section Invariants.
Variable generate_password_hash : string → string → string.
Variable check_password_hash : string → string → bool.
Variable float_of_str : string → option float.
Variable series_sum : list float → float.

Lemma add_expense_primary_key req w :
  primary_key (db w) → primary_key (db (snd (add_expense float_of_str req w))).
Proof.
  intros Hpk. unfold add_expense, login_required.
  destruct (current_user w) as [u|]; [|done].
  unfold form_item, to_float, check_amount, respond. simpl.
  walk_form float_of_str.
  unfold primary_key. simpl. rewrite fmap_app. by apply next_id_fresh.
Qed.

Lemma edit_expense_primary_key id req w :
  primary_key (db w) → primary_key (db (snd (edit_expense float_of_str id req w))).
Proof.
  intros Hpk. unfold edit_expense, login_required.
  destruct (current_user w) as [u|]; [|done].
  unfold form_item, to_float, check_amount, respond. simpl.
  destruct (expense_or_404 id (User.id u) (db w)) as [e|]; simpl; [|done].
  walk_form float_of_str.
  unfold primary_key. by rewrite update_expense_ids.
Qed.

Lemma delete_expense_primary_key id req w :
  primary_key (db w) → primary_key (db (snd (delete_expense id req w))).
Proof.
  intros Hpk. unfold delete_expense, login_required.
  destruct (current_user w) as [u|]; [|done]. unfold respond.
  destruct (expense_or_404 id (User.id u) (db w)) as [e|]; simpl; [|done].
  by apply remove_expense_primary_key.
Qed.

Lemma register_keeps_expenses req w :
  expenses (db (snd (register generate_password_hash req w))) = expenses (db w).
Proof.
  unfold register. destruct (method req); [done|].
  unfold form_item, respond.
  destruct (form_get "username" (form req)) as [username|]; simpl; [|done].
  destruct (form_get "password" (form req)); simpl; [|done].
  by destruct (user_by_username username (db w)).
Qed.

Lemma register_unique_usernames req w :
  unique_usernames (db w) →
  unique_usernames (db (snd (register generate_password_hash req w))).
Proof.
  intros Huniq. unfold register. destruct (method req); [done|].
  unfold form_item, respond.
  destruct (form_get "username" (form req)) as [username|]; simpl; [|done].
  destruct (form_get "password" (form req)); simpl; [|done].
  destruct (user_by_username username (db w)) as [?|] eqn:Hfind; simpl; [done|].
  unfold unique_usernames. simpl. rewrite fmap_app. apply NoDup_app.
  split_and!; [done| |apply NoDup_singleton].
  intros name Hname Hname'. apply list_elem_of_singleton in Hname' as ->.
  apply list_elem_of_fmap in Hname as (u & Heq & Hu).
  by destruct (proj1 (user_by_username_None _ _) Hfind u Hu).
Qed.

Lemma login_keeps_db req w : db (snd (login check_password_hash req w)) = db w.
Proof.
  unfold login. destruct (method req); [done|].
  unfold form_item, respond.
  destruct (form_get "username" (form req)) as [username|]; simpl; [|done].
  destruct (form_get "password" (form req)) as [password|]; simpl; [|done].
  destruct (user_by_username username (db w)) as [user|]; simpl; [|done].
  by destruct (check_password_hash (User.password user) password).
Qed.

(** X9: every request leaves the ids of the expenses distinct: a new row
    gets a key above all present ones, an edit keeps the key of its row,
    and a delete only removes. *)
Lemma dispatch_primary_key r req w :
  primary_key (db w) →
  primary_key (db (snd (dispatch generate_password_hash check_password_hash
                          float_of_str series_sum r req w))).
Proof.
  intros Hpk. unfold dispatch. destruct (allows r (method req)); [|done].
  destruct r.
  - unfold primary_key. by rewrite register_keeps_expenses.
  - by rewrite login_keeps_db.
  - unfold logout, login_required. by destruct (current_user w).
  - unfold index, login_required. by destruct (current_user w).
  - by apply add_expense_primary_key.
  - by apply edit_expense_primary_key.
  - unfold view_expenses, login_required. by destruct (current_user w).
  - by apply delete_expense_primary_key.
  - unfold show_summary, login_required. by destruct (current_user w).
Qed.

(** Only a registration adds a user; no view changes or removes one. *)
Lemma expense_views_keep_users r req w :
  expense_route r = true →
  users (db (snd (dispatch generate_password_hash check_password_hash
                    float_of_str series_sum r req w))) = users (db w).
Proof.
  intros Hr. unfold dispatch. destruct (allows r (method req)); [|done].
  destruct r; try discriminate Hr;
    unfold add_expense, edit_expense, view_expenses, delete_expense, show_summary,
      login_required;
    (destruct (current_user w) as [u|]; [|done]); try done.
  - walk_form float_of_str.
  - destruct (expense_or_404 _ _ _); [|done]. walk_form float_of_str.
  - unfold respond. by destruct (expense_or_404 _ _ _).
Qed.

(** X10: every request leaves the usernames distinct: a registration
    adds a user only under a name no user has. *)
Lemma dispatch_unique_usernames r req w :
  unique_usernames (db w) →
  unique_usernames (db (snd (dispatch generate_password_hash check_password_hash
                               float_of_str series_sum r req w))).
Proof.
  intros Huniq. unfold unique_usernames.
  destruct (expense_route r) eqn:Hr; [by rewrite expense_views_keep_users|].
  unfold dispatch. destruct (allows r (method req)); [|done].
  destruct r; try discriminate Hr.
  - by apply register_unique_usernames.
  - by rewrite login_keeps_db.
  - unfold logout, login_required. by destruct (current_user w).
  - unfold index, login_required. by destruct (current_user w).
Qed.
End Invariants.

(** ** The views on the sample *)

Example add_expense_stores_row :
  add_expense toy_float
    (post [("description", "tea"); ("amount", "12.5"); ("category", "food")]) as_alice
  = (Redirect "view_expenses",
     mkworld
       (mkdatabase [alice; bob]
          [lunch; bus; rent; Expense.mk 4 "tea" 12.5 "food" noon 1])
       (Some 1) []).
Proof. vm_compute. reflexivity. Qed.

Example add_expense_nan_amount :
  add_expense toy_float
    (post [("description", "tea"); ("amount", "nan"); ("category", "food")]) as_alice
  = (HttpError 500, as_alice).
Proof. vm_compute. reflexivity. Qed.

Example delete_needs_get :
  dispatch toy_hash toy_check toy_float kahan_sum (delete_expense_route 1)
    (post []) as_alice
  = (HttpError 405, as_alice).
Proof. vm_compute. reflexivity. Qed.

Example anonymous_is_sent_to_login :
  fst (dispatch toy_hash toy_check toy_float kahan_sum summary_route get anonymous)
  = Redirect "login".
Proof. vm_compute. reflexivity. Qed.

(** * Further properties of the views *)

(** ** Adding, listing and deleting *)

Lemma view_expenses_authenticated req w u :
  current_user w = Some u →
  ∃ es cats,
    view_expenses req w
    = (RenderViewExpenses es cats (form_get "category_filter" (form req)), w)
    ∧ (∀ x, x ∈ es → x ∈ expenses_of (User.id u) (db w))
    ∧ (form_get "category_filter" (form req) = None →
         es ≡ₚ expenses_of (User.id u) (db w)).
Proof.
  intros Hu. unfold view_expenses. rewrite (login_required_authenticated _ _ _ Hu).
  eexists _, _. split; [reflexivity|]. split.
  - intros x. rewrite order_by_date_desc_perm.
    destruct (form_get "category_filter" (form req)) as [c|]; [|done].
    destruct (truthy c && bool_decide (c ≠ "all")); [|done].
    rewrite list_elem_of_filter. tauto.
  - intros ->. apply order_by_date_desc_perm.
Qed.

Lemma expense_or_404_fresh d e :
  Expense.id e = next_id (Expense.id <$> expenses d) →
  expense_or_404 (Expense.id e) (Expense.user_id e)
    (mkdatabase (users d) (expenses d ++ [e])%list) = Ok e.
Proof.
  intros Hid. unfold expense_or_404. simpl. rewrite filter_app.
  assert (filter (λ r, Expense.id r = Expense.id e
                       ∧ Expense.user_id r = Expense.user_id e) (expenses d) = [])
    as ->.
  { apply head_None, head_filter_None. intros r Hr [Heq _].
    assert (Expense.id r < next_id (Expense.id <$> expenses d)).
    { apply next_id_above, list_elem_of_fmap. by exists r. }
    lia. }
  by rewrite filter_cons_True.
Qed.

Lemma filter_all {A} (P : A → Prop) `{!∀ x, Decision (P x)} (l : list A) :
  (∀ x, x ∈ l → P x) → filter P l = l.
Proof.
  induction l as [|a l IH]; intros HP; [done|].
  rewrite filter_cons_True by (apply HP; by left).
  f_equal. apply IH. intros x Hx. apply HP. by right.
Qed.

Lemma remove_fresh d e :
  Expense.id e = next_id (Expense.id <$> expenses d) →
  filter (λ r, Expense.id r ≠ Expense.id e) (expenses d ++ [e])%list = expenses d.
Proof.
  intros Hid. rewrite filter_app, filter_cons_False, filter_nil, app_nil_r by tauto.
  apply filter_all. intros r Hr.
  assert (Expense.id r < next_id (Expense.id <$> expenses d)).
  { apply next_id_above, list_elem_of_fmap. by exists r. }
  lia.
Qed.

Section AddListDelete.
Variable float_of_str : string → option float.

Lemma add_expense_post w u req description text category amount :
  current_user w = Some u →
  method req = POST →
  form_get "description" (form req) = Some description →
  form_get "amount" (form req) = Some text →
  form_get "category" (form req) = Some category →
  float_of_str text = Some amount →
  is_nan amount = false →
  add_expense float_of_str req w =
    (Redirect "view_expenses",
     set_db (mkdatabase (users (db w))
               (expenses (db w) ++ [new_expense w u req description amount category]))
       w).
Proof.
  intros Hu Hm Hd Ha Hc Hparse Hnan. unfold add_expense.
  rewrite (login_required_authenticated _ _ _ Hu), Hm.
  rewrite (form_item_Some _ _ _ Hd), (form_item_Some _ _ _ Ha). simpl.
  unfold to_float. rewrite Hparse. simpl.
  rewrite (form_item_Some _ _ _ Hc). simpl.
  unfold check_amount. by rewrite Hnan.
Qed.

Lemma current_user_after_add w u req description amount category :
  current_user w = Some u →
  current_user
    (set_db (mkdatabase (users (db w))
               (expenses (db w) ++ [new_expense w u req description amount category]))
       w) = Some u.
Proof. intros Hu. by rewrite current_user_set_db. Qed.

(** X1: a well-formed POST to add_expense appends exactly one row, with a
    key no row had, the date of the server clock and the current user as
    owner, and answers with the redirect to the listing; the unfiltered
    listing served next shows the user's former expenses and the new one,
    the new one exactly once. *)
Theorem add_expense_then_listed (w : world) (u : User.t) (req : request)
    (description text category : string) (amount : float) :
  current_user w = Some u →
  method req = POST →
  form_get "description" (form req) = Some description →
  form_get "amount" (form req) = Some text →
  form_get "category" (form req) = Some category →
  float_of_str text = Some amount →
  is_nan amount = false →
  let added :=
    Expense.mk (next_id (Expense.id <$> expenses (db w))) description amount category
      (utcnow req) (User.id u) in
  let after := snd (add_expense float_of_str req w) in
  fst (add_expense float_of_str req w) = Redirect "view_expenses"
  ∧ expenses (db after) = (expenses (db w) ++ [added])%list
  ∧ users (db after) = users (db w)
  ∧ (∀ r, r ∈ expenses (db w) → Expense.id r ≠ Expense.id added)
  ∧ (∀ req', form_get "category_filter" (form req') = None →
       ∃ es cats,
         view_expenses req' after = (RenderViewExpenses es cats None, after)
         ∧ es ≡ₚ (expenses_of (User.id u) (db w) ++ [added])%list
         ∧ filter (λ r, Expense.id r = Expense.id added) es = [added]).
Proof.
  intros Hu Hm Hd Ha Hc Hparse Hnan added after.
  assert (∀ r, r ∈ expenses (db w) → Expense.id r ≠ Expense.id added) as Hfresh.
  { intros r Hr. simpl.
    assert (Expense.id r < next_id (Expense.id <$> expenses (db w))).
    { apply next_id_above, list_elem_of_fmap. by exists r. }
    lia. }
  unfold after.
  rewrite (add_expense_post w u req _ _ _ _ Hu Hm Hd Ha Hc Hparse Hnan).
  fold (new_expense w u req description amount category). simpl.
  split_and!; try done.
  intros req' Hnone.
  destruct (view_expenses_authenticated req' _ u
              (current_user_after_add w u req description amount category Hu))
    as (es & cats & Hview & _ & Hall).
  rewrite Hnone in Hview. specialize (Hall Hnone).
  simpl in Hall. rewrite expenses_of_insert in Hall. simpl in Hall.
  rewrite decide_True in Hall by done.
  exists es, cats. split_and!; [done|done|].
  apply Permutation_singleton_r. rewrite Hall, filter_app.
  rewrite filter_cons_True, filter_nil by done.
  match goal with
  | |- context [filter ?P (expenses_of ?a ?b)] =>
      assert (filter P (expenses_of a b) = []) as ->; [|done]
  end.
  apply head_None, head_filter_None. intros r Hr.
  apply list_elem_of_filter in Hr as [_ Hr]. by apply Hfresh.
Qed.

Lemma filter_key_unique {A B} `{EqDecision B} (f : A → B) (l : list A) (e : A) :
  NoDup (f <$> l) → e ∈ l → filter (λ r, f r = f e) l = [e].
Proof.
  induction l as [|a l IH]; csimpl; intros Hnd He; [by apply elem_of_nil in He|].
  apply NoDup_cons in Hnd as [Hnotin Hnd].
  apply elem_of_cons in He as [->|He].
  - rewrite filter_cons_True by done. f_equal.
    apply head_None, head_filter_None. intros r Hr Heq.
    destruct Hnotin. rewrite <- Heq. apply list_elem_of_fmap. by exists r.
  - rewrite filter_cons_False; [by apply IH|].
    intros Heq. destruct Hnotin. rewrite Heq. apply list_elem_of_fmap. by exists e.
Qed.

(** X2: deleting an expense the current user owns removes that row and
    no other, flashes the success notice and redirects to the listing;
    afterwards the id is gone: an edit or a delete addressed at it
    answers 404, and no listing shows it. *)
Theorem delete_expense_removes_row (w : world) (u : User.t) (e : Expense.t)
    (req : request) :
  current_user w = Some u →
  primary_key (db w) →
  e ∈ expenses (db w) →
  Expense.user_id e = User.id u →
  let after := snd (delete_expense (Expense.id e) req w) in
  fst (delete_expense (Expense.id e) req w) = Redirect "view_expenses"
  ∧ flashes after = (flashes w ++ [("Expense deleted successfully!", "success")])%list
  ∧ expenses (db w) ≡ₚ e :: expenses (db after)
  ∧ users (db after) = users (db w)
  ∧ (∀ r, r ∈ expenses (db after) → Expense.id r ≠ Expense.id e)
  ∧ (∀ req',
       edit_expense float_of_str (Expense.id e) req' after = (HttpError 404, after)
       ∧ delete_expense (Expense.id e) req' after = (HttpError 404, after))
  ∧ (∀ req' es cats f w',
       view_expenses req' after = (RenderViewExpenses es cats f, w') →
       ∀ r, r ∈ es → Expense.id r ≠ Expense.id e).
Proof.
  intros Hu Hpk He Hown after.
  assert (delete_expense (Expense.id e) req w =
            (Redirect "view_expenses",
             flash "Expense deleted successfully!" "success"
               (set_db (remove_expense e (db w)) w))) as Hdelete.
  { unfold delete_expense. rewrite (login_required_authenticated _ _ _ Hu), <- Hown.
    by rewrite (expense_or_404_owned _ _ Hpk He). }
  unfold after. rewrite Hdelete. simpl.
  set (gone := flash "Expense deleted successfully!" "success"
                 (set_db (remove_expense e (db w)) w)).
  assert (current_user gone = Some u) as Hu'.
  { unfold gone, current_user, user_by_id. simpl. exact Hu. }
  assert (∀ r, r ∈ filter (λ r, Expense.id r ≠ Expense.id e) (expenses (db w)) →
               Expense.id r ≠ Expense.id e) as Hgone.
  { intros r Hr. apply list_elem_of_filter in Hr. tauto. }
  assert (expense_or_404 (Expense.id e) (User.id u) (db gone) = Raise NotFound)
    as Hmiss.
  { apply expense_or_404_NotFound. simpl. intros r Hr Hid.
    by destruct (Hgone r Hr). }
  split_and!; try done.
  - rewrite <- (filter_app_complement (λ r, Expense.id r ≠ Expense.id e)
                  (expenses (db w))) at 1.
    rewrite (list_filter_iff (λ r, ¬ Expense.id r ≠ Expense.id e)
               (λ r, Expense.id r = Expense.id e)).
    + rewrite (filter_key_unique Expense.id _ e Hpk He).
      by rewrite Permutation_app_comm.
    + intros r. destruct (decide (Expense.id r = Expense.id e)); tauto.
  - intros req'. unfold edit_expense, delete_expense.
    rewrite !(login_required_authenticated _ _ _ Hu'). by rewrite Hmiss.
  - intros req' es cats f w' Hview r Hr.
    destruct (view_expenses_authenticated req' gone u Hu')
      as (es' & cats' & Hview' & Hsub & _).
    rewrite Hview' in Hview. injection Hview as <- _ _ _.
    apply Hsub in Hr. apply list_elem_of_filter in Hr as [_ Hr]. by apply Hgone.
Qed.

(** X3: adding an expense and then deleting it by the key it was given
    leaves the two tables as they were before the pair of requests. *)
Theorem add_then_delete_restores (w : world) (u : User.t) (req req' : request)
    (description text category : string) (amount : float) :
  current_user w = Some u →
  method req = POST →
  form_get "description" (form req) = Some description →
  form_get "amount" (form req) = Some text →
  form_get "category" (form req) = Some category →
  float_of_str text = Some amount →
  is_nan amount = false →
  let after := snd (add_expense float_of_str req w) in
  let key := next_id (Expense.id <$> expenses (db w)) in
  fst (delete_expense key req' after) = Redirect "view_expenses"
  ∧ db (snd (delete_expense key req' after)) = db w.
Proof.
  intros Hu Hm Hd Ha Hc Hparse Hnan after key. unfold after.
  rewrite (add_expense_post w u req _ _ _ _ Hu Hm Hd Ha Hc Hparse Hnan). simpl.
  unfold delete_expense.
  rewrite (login_required_authenticated _ _ _
             (current_user_after_add w u req description amount category Hu)).
  simpl.
  pose proof (expense_or_404_fresh (db w)
                (new_expense w u req description amount category) eq_refl) as Hfind.
  simpl in Hfind. unfold key. rewrite Hfind.
  assert (remove_expense (new_expense w u req description amount category)
            (mkdatabase (users (db w))
               (expenses (db w) ++ [new_expense w u req description amount category]))
          = db w) as Hrestored.
  { unfold remove_expense. cbn [users expenses].
    rewrite (remove_fresh (db w) (new_expense w u req description amount category))
      by done.
    by destruct (db w). }
  split; [done|exact Hrestored].
Qed.
End AddListDelete.

Lemma add_expense_then_listed_witness :
  expenses (db (snd (add_expense toy_float
    (post [("description", "tea"); ("amount", "12.5"); ("category", "food")])
    as_alice)))
  = [lunch; bus; rent; Expense.mk 4 "tea" 12.5 "food" noon 1].
Proof.
  exact (proj1 (proj2 (add_expense_then_listed toy_float as_alice alice
    (post [("description", "tea"); ("amount", "12.5"); ("category", "food")])
    "tea" "12.5" "food" 12.5%float
    eq_refl eq_refl eq_refl eq_refl eq_refl eq_refl eq_refl))).
Defined.

Lemma delete_expense_removes_row_witness :
  expenses (db as_alice)
  ≡ₚ lunch :: expenses (db (snd (delete_expense 1 get as_alice))).
Proof.
  destruct (delete_expense_removes_row toy_float as_alice alice lunch get)
    as (_ & _ & Hrows & _); [reflexivity | compute_done | | reflexivity | exact Hrows].
  unfold as_alice, sample_db. simpl. rewrite !elem_of_cons. auto.
Defined.

Lemma add_then_delete_restores_witness :
  db (snd (delete_expense 4 get
    (snd (add_expense toy_float
       (post [("description", "tea"); ("amount", "12.5"); ("category", "food")])
       as_alice))))
  = sample_db.
Proof.
  exact (proj2 (add_then_delete_restores toy_float as_alice alice
    (post [("description", "tea"); ("amount", "12.5"); ("category", "food")]) get
    "tea" "12.5" "food" 12.5%float
    eq_refl eq_refl eq_refl eq_refl eq_refl eq_refl eq_refl)).
Defined.

(** ** Visitors, sessions and accounts *)

Section Sessions.
Variable generate_password_hash : string → string → string.
Variable check_password_hash : string → string → bool.
Variable float_of_str : string → option float.
Variable series_sum : list float → float.

(** X4: a visitor who is not logged in gets nothing out of a protected
    route: when the method is one of the route's the answer is the
    redirect to the login page with flask-login's notice, and in every
    case the database and the session are left as they were. *)
Theorem anonymous_visitor_turned_away (r : route) (req : request) (w : world) :
  protected r = true →
  current_user w = None →
  let out := dispatch generate_password_hash check_password_hash float_of_str
               series_sum r req w in
  db (snd out) = db w
  ∧ session_user_id (snd out) = session_user_id w
  ∧ (allows r (method req) = true →
       out = (Redirect "login",
              flash "Please log in to access this page." "message" w)).
Proof.
  intros Hr Hanon out. unfold out, dispatch.
  destruct (allows r (method req)); [|done].
  destruct r; try discriminate Hr;
    unfold logout, index, add_expense, edit_expense, view_expenses, delete_expense,
      show_summary, login_required; by rewrite Hanon.
Qed.

(** X5: logging out clears the session and touches nothing else; the
    next request to any protected route is answered with the redirect to
    the login page and leaves the database alone. *)
Theorem logout_ends_session (w : world) (u : User.t) (req req' : request)
    (r : route) :
  current_user w = Some u →
  method req = GET →
  protected r = true →
  allows r (method req') = true →
  let serve := dispatch generate_password_hash check_password_hash float_of_str
                 series_sum in
  let after := snd (serve logout_route req w) in
  fst (serve logout_route req w) = Redirect "index"
  ∧ session_user_id after = None
  ∧ db after = db w
  ∧ flashes after = flashes w
  ∧ fst (serve r req' after) = Redirect "login"
  ∧ db (snd (serve r req' after)) = db w.
Proof.
  intros Hu Hm Hr Hallow serve after.
  assert (serve logout_route req w
          = (Redirect "index", mkworld (db w) None (flashes w))) as Hout.
  { unfold serve, dispatch. rewrite Hm. simpl. unfold logout.
    by rewrite (login_required_authenticated _ _ _ Hu). }
  assert (serve r req' (mkworld (db w) None (flashes w))
          = (Redirect "login",
             flash "Please log in to access this page." "message"
               (mkworld (db w) None (flashes w)))) as Hnext.
  { unfold serve, dispatch. rewrite Hallow.
    destruct r; try discriminate Hr; reflexivity. }
  unfold after. rewrite Hout. simpl. rewrite Hnext. done.
Qed.
End Sessions.

Lemma anonymous_visitor_turned_away_witness :
  dispatch toy_hash toy_check toy_float kahan_sum summary_route get anonymous
  = (Redirect "login", flash "Please log in to access this page." "message" anonymous).
Proof.
  exact (proj2 (proj2 (anonymous_visitor_turned_away toy_hash toy_check toy_float
    kahan_sum summary_route get anonymous eq_refl eq_refl)) eq_refl).
Defined.

Lemma logout_ends_session_witness :
  fst (dispatch toy_hash toy_check toy_float kahan_sum view_expenses_route (post [])
         (snd (dispatch toy_hash toy_check toy_float kahan_sum logout_route get
                 as_alice)))
  = Redirect "login".
Proof.
  exact (proj1 (proj2 (proj2 (proj2 (proj2 (logout_ends_session toy_hash toy_check
    toy_float kahan_sum as_alice alice get (post []) view_expenses_route
    eq_refl eq_refl eq_refl eq_refl)))))).
Defined.

Lemma user_by_id_fresh us es u :
  User.id u = next_id (User.id <$> us) →
  user_by_id (User.id u) (mkdatabase (us ++ [u]) es) = Some u.
Proof.
  intros Hid. unfold user_by_id. simpl. rewrite filter_app.
  assert (filter (λ r, User.id r = User.id u) us = []) as ->.
  { apply head_None, head_filter_None. intros r Hr Heq.
    assert (User.id r < next_id (User.id <$> us)).
    { apply next_id_above, list_elem_of_fmap. by exists r. }
    lia. }
  by rewrite filter_cons_True.
Qed.

Section Accounts.
Variable generate_password_hash : string → string → string.
Variable check_password_hash : string → string → bool.
Variable float_of_str : string → option float.
Variable series_sum : list float → float.

(** X6: registering a name nobody has stores one new user, with a fresh
    id and the hash [generate_password_hash] made of the password (the
    form's text itself is not stored), and sends the visitor to the login
    page.  If [check_password_hash] accepts the password against that
    hash, logging in with the same name and password then succeeds, and
    the session resolves to the new user. *)
Theorem register_then_login (w : world) (req req' : request)
    (username password : string) :
  method req = POST →
  form_get "username" (form req) = Some username →
  form_get "password" (form req) = Some password →
  user_by_username username (db w) = None →
  check_password_hash (generate_password_hash (salt req) password) password = true →
  method req' = POST →
  form_get "username" (form req') = Some username →
  form_get "password" (form req') = Some password →
  let created :=
    User.mk (next_id (User.id <$> users (db w))) username
      (generate_password_hash (salt req) password) in
  let registered := snd (register generate_password_hash req w) in
  fst (register generate_password_hash req w) = Redirect "login"
  ∧ users (db registered) = (users (db w) ++ [created])%list
  ∧ expenses (db registered) = expenses (db w)
  ∧ (∀ r, r ∈ users (db w) → User.id r ≠ User.id created)
  ∧ login check_password_hash req' registered
    = (Redirect "index", login_user created registered)
  ∧ current_user (login_user created registered) = Some created.
Proof.
  intros Hm Hname Hpw Hfree Hcheck Hm' Hname' Hpw' created registered.
  unfold registered. rewrite (register_post _ _ _ _ _ Hm Hname Hpw), Hfree. simpl.
  assert (user_by_username username
            (mkdatabase (users (db w) ++ [created]) (expenses (db w))) = Some created)
    as Hfound.
  { rewrite user_by_username_app.
    assert (user_by_username username (mkdatabase (users (db w)) (expenses (db w)))
            = None) as ->.
    { revert Hfree. by destruct (db w). }
    unfold user_by_username. simpl. by rewrite filter_cons_True. }
  split_and!; try done.
  - intros r Hr. simpl.
    assert (User.id r < next_id (User.id <$> users (db w))).
    { apply next_id_above, list_elem_of_fmap. by exists r. }
    lia.
  - rewrite (login_post _ _ _ _ _ Hm' Hname' Hpw').
    match goal with
    | |- context [user_by_username username ?d] =>
        replace (user_by_username username d) with (Some created)
          by (symmetry; exact Hfound)
    end.
    simpl. by rewrite Hcheck.
  - exact (user_by_id_fresh (users (db w)) (expenses (db w)) created eq_refl).
Qed.

(** X7: no request changes or removes a user: the users before a request
    are the first users after it, in the same order and with the same
    stored hashes.  Only the registration route can add one, and it adds
    at most one. *)
Theorem users_only_grow (r : route) (req : request) (w : world) :
  let after := snd (dispatch generate_password_hash check_password_hash float_of_str
                      series_sum r req w) in
  users (db w) `prefix_of` users (db after)
  ∧ (r ≠ register_route → users (db after) = users (db w))
  ∧ (length (users (db after)) ≤ S (length (users (db w))))%nat.
Proof.
  intros after.
  assert (users (db after) = users (db w)
          ∨ r = register_route ∧ ∃ u, users (db after) = (users (db w) ++ [u])%list)
    as Hcases.
  { unfold after. destruct (expense_route r) eqn:Hr;
      [left; by apply expense_views_keep_users|].
    unfold dispatch. destruct (allows r (method req)); [|by left].
    destruct r; try discriminate Hr.
    - unfold register. destruct (method req); [by left|].
      unfold form_item, respond.
      destruct (form_get "username" (form req)) as [username|]; simpl; [|by left].
      destruct (form_get "password" (form req)); simpl; [|by left].
      destruct (user_by_username username (db w)); simpl; [by left|].
      right. split; [done|]. by eexists.
    - left. by rewrite login_keeps_db.
    - left. unfold logout, login_required. by destruct (current_user w).
    - left. unfold index, login_required. by destruct (current_user w). }
  destruct Hcases as [-> | [-> [u ->]]].
  - split_and!; [done|done|lia].
  - split_and!; [by apply prefix_app_r|done|rewrite length_app; simpl; lia].
Qed.

(** X8: when a login is let through, the session is bound to a user of
    the submitted name whose stored hash [check_password_hash] accepted,
    and [load_user] resolves the session to that very user from then on;
    the database is as before. *)
Theorem login_binds_session (w : world) (req : request) (username password : string) :
  method req = POST →
  form_get "username" (form req) = Some username →
  form_get "password" (form req) = Some password →
  user_key (db w) →
  fst (login check_password_hash req w) = Redirect "index" →
  ∃ user,
    user ∈ users (db w)
    ∧ User.username user = username
    ∧ check_password_hash (User.password user) password = true
    ∧ session_user_id (snd (login check_password_hash req w)) = Some (User.id user)
    ∧ current_user (snd (login check_password_hash req w)) = Some user
    ∧ db (snd (login check_password_hash req w)) = db w.
Proof.
  intros Hm Hname Hpw Hkey. rewrite (login_post _ _ _ _ _ Hm Hname Hpw).
  destruct (user_by_username username (db w)) as [user|] eqn:Hfind; [|done].
  destruct (check_password_hash (User.password user) password) eqn:Hcheck; [|done].
  intros _. apply user_by_username_Some in Hfind as [Huser Huname].
  exists user. split_and!; try done.
  unfold current_user, user_by_id. simpl.
  by rewrite (filter_key_unique User.id (users (db w)) user Hkey Huser).
Qed.

(** X11: every request leaves the ids of the users distinct. *)
Theorem dispatch_user_key (r : route) (req : request) (w : world) :
  user_key (db w) →
  user_key (db (snd (dispatch generate_password_hash check_password_hash float_of_str
                       series_sum r req w))).
Proof.
  intros Hkey. unfold user_key.
  destruct (expense_route r) eqn:Hr; [by rewrite expense_views_keep_users|].
  unfold dispatch. destruct (allows r (method req)); [|done].
  destruct r; try discriminate Hr.
  - unfold register. destruct (method req); [done|].
    unfold form_item, respond.
    destruct (form_get "username" (form req)) as [username|]; simpl; [|done].
    destruct (form_get "password" (form req)); simpl; [|done].
    destruct (user_by_username username (db w)); simpl; [done|].
    rewrite fmap_app. by apply next_id_fresh.
  - by rewrite login_keeps_db.
  - unfold logout, login_required. by destruct (current_user w).
  - unfold index, login_required. by destruct (current_user w).
Qed.
End Accounts.

Lemma register_then_login_witness :
  login toy_check (post [("username", "carol"); ("password", "pw")])
    (snd (register tag_hash (post [("username", "carol"); ("password", "pw")])
            anonymous))
  = (Redirect "index",
     login_user (User.mk 3 "carol" "stored-hash-of-pw")
       (snd (register tag_hash (post [("username", "carol"); ("password", "pw")])
               anonymous))).
Proof.
  exact (proj1 (proj2 (proj2 (proj2 (proj2 (register_then_login tag_hash toy_check
    anonymous (post [("username", "carol"); ("password", "pw")])
    (post [("username", "carol"); ("password", "pw")]) "carol" "pw"
    eq_refl eq_refl eq_refl eq_refl eq_refl eq_refl eq_refl eq_refl)))))).
Defined.

Lemma login_binds_session_witness :
  ∃ user,
    user ∈ users (db anonymous)
    ∧ User.username user = "alice"
    ∧ toy_check (User.password user) "alice" = true
    ∧ session_user_id
        (snd (login toy_check (post [("username", "alice"); ("password", "alice")])
                anonymous)) = Some (User.id user)
    ∧ current_user
        (snd (login toy_check (post [("username", "alice"); ("password", "alice")])
                anonymous)) = Some user
    ∧ db (snd (login toy_check (post [("username", "alice"); ("password", "alice")])
                 anonymous)) = db anonymous.
Proof.
  apply (login_binds_session toy_check anonymous
    (post [("username", "alice"); ("password", "alice")]) "alice" "alice");
    [reflexivity | reflexivity | reflexivity | compute_done | reflexivity].
Defined.

Lemma dispatch_user_key_witness :
  user_key
    (db (snd (dispatch tag_hash toy_check toy_float kahan_sum register_route
                (post [("username", "carol"); ("password", "pw")]) anonymous))).
Proof.
  apply (dispatch_user_key tag_hash toy_check toy_float kahan_sum register_route
    (post [("username", "carol"); ("password", "pw")]) anonymous).
  compute_done.
Defined.

Lemma dispatch_primary_key_witness :
  primary_key
    (db (snd (dispatch toy_hash toy_check toy_float kahan_sum add_expense_route
                (post [("description", "tea"); ("amount", "12.5"); ("category", "food")])
                as_alice))).
Proof.
  apply (dispatch_primary_key toy_hash toy_check toy_float kahan_sum add_expense_route
    (post [("description", "tea"); ("amount", "12.5"); ("category", "food")]) as_alice).
  compute_done.
Defined.

Lemma dispatch_unique_usernames_witness :
  unique_usernames
    (db (snd (dispatch toy_hash toy_check toy_float kahan_sum register_route
                (post [("username", "carol"); ("password", "pw")]) anonymous))).
Proof.
  apply (dispatch_unique_usernames toy_hash toy_check toy_float kahan_sum register_route
    (post [("username", "carol"); ("password", "pw")]) anonymous).
  compute_done.
Defined.

(** ** Charts and the category selector *)







(** X15: the categories offered beside "all" are the same for every
    request, and they are the categories in use: choosing any of them as
    the filter gives a listing with at least one expense, and the
    category of every expense that a listing shows is among them. *)
Theorem offered_categories_in_use (w : world) (u : User.t) :
  current_user w = Some u →
  ∃ cats,
    (∀ req, ∃ es,
       view_expenses req w
       = (RenderViewExpenses es ("all" :: cats) (form_get "category_filter" (form req)),
          w)
       ∧ (∀ e, e ∈ es → Expense.category e ∈ cats)
       ∧ (∀ c, c ∈ cats → form_get "category_filter" (form req) = Some c → es ≠ [])).
Proof.
  intros Hu. exists (sorted_set (Expense.category <$> expenses_of (User.id u) (db w))).
  intros req. unfold view_expenses. rewrite (login_required_authenticated _ _ _ Hu).
  eexists. split; [reflexivity|]. split.
  - intros e. rewrite order_by_date_desc_perm, elem_of_sorted_set, list_elem_of_fmap.
    intros He. exists e. split; [done|].
    destruct (form_get "category_filter" (form req)) as [c|]; [|done].
    destruct (truthy c && bool_decide (c ≠ "all")); [|done].
    apply list_elem_of_filter in He. tauto.
  - intros c. rewrite elem_of_sorted_set, list_elem_of_fmap.
    intros (e & -> & He) -> Hnil.
    assert (e ∈ order_by_date_desc
              (if truthy (Expense.category e)
                  && bool_decide (Expense.category e ≠ "all")
               then filter (λ e', Expense.category e' = Expense.category e)
                      (expenses_of (User.id u) (db w))
               else expenses_of (User.id u) (db w))) as Hin.
    { rewrite order_by_date_desc_perm.
      destruct (truthy _ && bool_decide _); [|done].
      by apply list_elem_of_filter. }
    rewrite Hnil in Hin. by apply elem_of_nil in Hin.
Qed.

Lemma offered_categories_in_use_witness :
  ∃ cats, ∀ req, ∃ es,
    view_expenses req as_alice
    = (RenderViewExpenses es ("all" :: cats) (form_get "category_filter" (form req)),
       as_alice)
    ∧ (∀ e, e ∈ es → Expense.category e ∈ cats)
    ∧ (∀ c, c ∈ cats → form_get "category_filter" (form req) = Some c → es ≠ []).
Proof. exact (offered_categories_in_use as_alice alice eq_refl). Defined.

(** ** Requests that do not go through *)

Lemma update_update e1 e2 d :
  Expense.id e1 = Expense.id e2 →
  update_expense e2 (update_expense e1 d) = update_expense e2 d.
Proof.
  intros Hid. unfold update_expense. simpl. f_equal.
  rewrite <- list_fmap_compose. apply list_fmap_ext. intros i r _. simpl.
  destruct (decide (Expense.id r = Expense.id e1)) as [Heq|Hne].
  - rewrite !decide_True by congruence. done.
  - done.
Qed.

Lemma elem_of_update e' d e :
  e ∈ expenses d → Expense.id e' = Expense.id e → e' ∈ expenses (update_expense e' d).
Proof.
  intros He Hid. unfold update_expense. simpl. apply list_elem_of_fmap.
  exists e. by rewrite decide_True.
Qed.

Section Refusals.
Variable generate_password_hash : string → string → string.
Variable check_password_hash : string → string → bool.
Variable float_of_str : string → option float.
Variable series_sum : list float → float.

(** X13: a registration or a login posted without its username or its
    password field is answered with status 400: no user is looked up,
    nothing is stored, nobody is logged in and nothing is flashed. *)
Theorem account_form_needs_both_fields (w : world) (req : request) :
  method req = POST →
  form_get "username" (form req) = None ∨ form_get "password" (form req) = None →
  register generate_password_hash req w = (HttpError 400, w)
  ∧ login check_password_hash req w = (HttpError 400, w).
Proof.
  intros Hm Hmissing. unfold register, login, form_item. rewrite Hm.
  destruct (form_get "username" (form req)); simpl; [|done].
  destruct Hmissing as [ | -> ]; done.
Qed.

(** X14: a new expense or an edit posted without its description or its
    amount field is answered with status 400 and stores nothing; for an
    edit the lookup comes first, so an expense that is not the user's is
    still answered with 404.  A missing category gives the same 400 once
    the amount has parsed. *)
Theorem expense_form_needs_its_fields (w : world) (u : User.t) (req : request)
    (id : Z) :
  current_user w = Some u →
  method req = POST →
  form_get "description" (form req) = None ∨ form_get "amount" (form req) = None
  ∨ (form_get "category" (form req) = None
     ∧ ∃ text, form_get "amount" (form req) = Some text
               ∧ is_Some (float_of_str text)) →
  add_expense float_of_str req w = (HttpError 400, w)
  ∧ edit_expense float_of_str id req w
    = (HttpError (match expense_or_404 id (User.id u) (db w) with
                  | Ok _ => 400
                  | Raise _ => 404
                  end), w).
Proof.
  intros Hu Hm Hmissing. unfold add_expense, edit_expense.
  rewrite !(login_required_authenticated _ _ _ Hu), Hm.
  unfold form_item, to_float.
  split; [|unfold expense_or_404; destruct (head _); simpl; [|done]].
  all: destruct (form_get "description" (form req)); simpl; [|done].
  all: destruct Hmissing as [ | [ -> | (Hc & text & -> & [x Hx]) ] ]; try done.
  all: simpl; rewrite Hx; simpl; by rewrite Hc.
Qed.

(** X16: an edit whose amount text [float] rejects ends in the server
    error, like a new expense does: although the description was already
    assigned, nothing is committed, no notice is flashed and the row
    stays as it was. *)
Theorem edit_expense_unparseable_amount (w : world) (u : User.t) (e : Expense.t)
    (req : request) (description text : string) :
  current_user w = Some u →
  primary_key (db w) →
  e ∈ expenses (db w) →
  Expense.user_id e = User.id u →
  method req = POST →
  form_get "description" (form req) = Some description →
  form_get "amount" (form req) = Some text →
  float_of_str text = None →
  edit_expense float_of_str (Expense.id e) req w = (HttpError 500, w).
Proof.
  intros Hu Hpk He Hown Hm Hd Ha Hparse. unfold edit_expense.
  rewrite (login_required_authenticated _ _ _ Hu), <- Hown.
  rewrite (expense_or_404_owned _ _ Hpk He). simpl.
  rewrite Hm, (form_item_Some _ _ _ Hd), (form_item_Some _ _ _ Ha). simpl.
  unfold to_float. by rewrite Hparse.
Qed.

(** X17: of two edits of the same expense the later one decides: the
    database after both is the database after the second alone, with the
    description, amount and category of the second form and the id, date
    and owner the expense had from the start. *)
Theorem second_edit_wins (w : world) (u : User.t) (e : Expense.t) (req1 req2 : request)
    (description1 text1 category1 description2 text2 category2 : string)
    (amount1 amount2 : float) :
  current_user w = Some u →
  primary_key (db w) →
  e ∈ expenses (db w) →
  Expense.user_id e = User.id u →
  method req1 = POST →
  form_get "description" (form req1) = Some description1 →
  form_get "amount" (form req1) = Some text1 →
  form_get "category" (form req1) = Some category1 →
  float_of_str text1 = Some amount1 →
  is_nan amount1 = false →
  method req2 = POST →
  form_get "description" (form req2) = Some description2 →
  form_get "amount" (form req2) = Some text2 →
  form_get "category" (form req2) = Some category2 →
  float_of_str text2 = Some amount2 →
  is_nan amount2 = false →
  let edit req := edit_expense float_of_str (Expense.id e) req in
  db (snd (edit req2 (snd (edit req1 w)))) = db (snd (edit req2 w))
  ∧ db (snd (edit req2 w))
    = update_expense
        (Expense.mk (Expense.id e) description2 amount2 category2
           (Expense.date e) (Expense.user_id e)) (db w).
Proof.
  intros Hu Hpk He Hown Hm1 Hd1 Ha1 Hc1 Hp1 Hn1 Hm2 Hd2 Ha2 Hc2 Hp2 Hn2 edit.
  unfold edit.
  rewrite (edit_expense_post _ w u e req2 _ _ _ _ Hu Hpk He Hown Hm2 Hd2 Ha2 Hc2 Hp2 Hn2).
  rewrite (edit_expense_post _ w u e req1 _ _ _ _ Hu Hpk He Hown Hm1 Hd1 Ha1 Hc1 Hp1 Hn1).
  set (e1 := Expense.mk (Expense.id e) description1 amount1 category1
               (Expense.date e) (Expense.user_id e)).
  set (w1 := flash "Expense updated successfully!" "success"
               (set_db (update_expense e1 (db w)) w)).
  assert (current_user w1 = Some u) as Hu1 by exact Hu.
  assert (primary_key (db w1)) as Hpk1.
  { unfold primary_key, w1. simpl.
    change (NoDup (Expense.id <$> expenses (update_expense e1 (db w)))).
    by rewrite update_expense_ids. }
  assert (e1 ∈ expenses (db w1)) as He1 by (by apply (elem_of_update e1 (db w) e)).
  pose proof (edit_expense_post _ w1 u e1 req2 _ _ _ _ Hu1 Hpk1 He1 Hown
                Hm2 Hd2 Ha2 Hc2 Hp2 Hn2) as Hsecond.
  simpl in Hsecond |- *. rewrite Hsecond. simpl.
  split; [|done]. by apply update_update.
Qed.
End Refusals.

Lemma account_form_needs_both_fields_witness :
  register toy_hash (post [("username", "carol")]) anonymous = (HttpError 400, anonymous)
  ∧ login toy_check (post [("username", "carol")]) anonymous = (HttpError 400, anonymous).
Proof.
  exact (account_form_needs_both_fields toy_hash toy_check anonymous
    (post [("username", "carol")]) eq_refl (or_intror eq_refl)).
Defined.

Lemma expense_form_needs_its_fields_witness :
  add_expense toy_float (post [("description", "tea"); ("category", "food")]) as_alice
  = (HttpError 400, as_alice)
  ∧ edit_expense toy_float 3 (post [("description", "tea"); ("category", "food")])
      as_alice
    = (HttpError 404, as_alice).
Proof.
  exact (expense_form_needs_its_fields toy_float as_alice alice
    (post [("description", "tea"); ("category", "food")]) 3
    eq_refl eq_refl (or_intror (or_introl eq_refl))).
Defined.

Lemma edit_expense_unparseable_amount_witness :
  edit_expense toy_float 1
    (post [("description", "brunch"); ("amount", "abc"); ("category", "food")]) as_alice
  = (HttpError 500, as_alice).
Proof.
  apply (edit_expense_unparseable_amount toy_float as_alice alice lunch _
    "brunch" "abc");
    [reflexivity | compute_done | | reflexivity | reflexivity | reflexivity
    | reflexivity | reflexivity].
  unfold as_alice, sample_db. simpl. rewrite !elem_of_cons. auto.
Defined.

Lemma second_edit_wins_witness :
  db (snd (edit_expense toy_float 1
    (post [("description", "brunch"); ("amount", "12.5"); ("category", "eating out")])
    (snd (edit_expense toy_float 1
       (post [("description", "snack"); ("amount", "12.5"); ("category", "food")])
       as_alice))))
  = mkdatabase [alice; bob]
      [Expense.mk 1 "brunch" 12.5 "eating out" (Expense.date lunch) 1; bus; rent].
Proof.
  assert (lunch ∈ expenses (db as_alice)) as Hlunch.
  { unfold as_alice, sample_db. simpl. rewrite !elem_of_cons. auto. }
  assert (primary_key (db as_alice)) as Hpk by compute_done.
  destruct (second_edit_wins toy_float as_alice alice lunch
    (post [("description", "snack"); ("amount", "12.5"); ("category", "food")])
    (post [("description", "brunch"); ("amount", "12.5"); ("category", "eating out")])
    "snack" "12.5" "food" "brunch" "12.5" "eating out" 12.5%float 12.5%float
    eq_refl Hpk Hlunch eq_refl eq_refl eq_refl eq_refl eq_refl eq_refl eq_refl
    eq_refl eq_refl eq_refl eq_refl eq_refl eq_refl) as [Hboth Hsecond].
  exact (eq_trans Hboth Hsecond).
Defined.

(** ** Owner and date of a row *)

Section Provenance.
Variable generate_password_hash : string → string → string.
Variable check_password_hash : string → string → bool.
Variable float_of_str : string → option float.
Variable series_sum : list float → float.

(** X18: no request moves an expense to another owner or to another
    date: every row found after a request either has the id, the date
    and the owner of a row that was there before, or it is the row a new
    expense just created, dated by the server clock, owned by the current
    user and keyed unlike any row before. *)
Theorem rows_keep_owner_and_date (r : route) (req : request) (w : world)
    (e' : Expense.t) :
  e' ∈ expenses (db (snd (dispatch generate_password_hash check_password_hash
                            float_of_str series_sum r req w))) →
  (∃ e, e ∈ expenses (db w)
        ∧ Expense.id e = Expense.id e'
        ∧ Expense.date e = Expense.date e'
        ∧ Expense.user_id e = Expense.user_id e')
  ∨ (r = add_expense_route
     ∧ method req = POST
     ∧ Expense.date e' = utcnow req
     ∧ (∃ u, current_user w = Some u ∧ Expense.user_id e' = User.id u)
     ∧ ∀ e, e ∈ expenses (db w) → Expense.id e ≠ Expense.id e').
Proof.
  unfold dispatch.
  assert (e' ∈ expenses (db w) →
          ∃ e, e ∈ expenses (db w) ∧ Expense.id e = Expense.id e'
               ∧ Expense.date e = Expense.date e'
               ∧ Expense.user_id e = Expense.user_id e') as Hold.
  { intros He'. by exists e'. }
  destruct (allows r (method req)); [|by left; apply Hold].
  destruct r.
  - rewrite register_keeps_expenses. by left; apply Hold.
  - rewrite login_keeps_db. by left; apply Hold.
  - unfold logout, login_required. destruct (current_user w); by left; apply Hold.
  - unfold index, login_required. destruct (current_user w); by left; apply Hold.
  - unfold add_expense, login_required.
    destruct (current_user w) as [u|]; [|by left; apply Hold].
    destruct (method req) eqn:Hm; [by left; apply Hold|].
    unfold form_item, to_float, check_amount, respond.
    destruct (form_get "description" (form req)); simpl; [|by left; apply Hold].
    destruct (form_get "amount" (form req)) as [text|]; simpl; [|by left; apply Hold].
    destruct (float_of_str text) as [amount|]; simpl; [|by left; apply Hold].
    destruct (form_get "category" (form req)); simpl; [|by left; apply Hold].
    destruct (is_nan amount); simpl; [by left; apply Hold|].
    rewrite elem_of_app, list_elem_of_singleton. intros [He'| ->]; [by left; apply Hold|].
    right. simpl. split_and!; try done; [by exists u|].
    intros e He.
    assert (Expense.id e < next_id (Expense.id <$> expenses (db w))).
    { apply next_id_above, list_elem_of_fmap. by exists e. }
    lia.
  - unfold edit_expense, login_required.
    destruct (current_user w) as [u|]; [|by left; apply Hold].
    unfold respond.
    destruct (expense_or_404 (Z.of_N id) (User.id u) (db w)) as [e|] eqn:Hfind; simpl;
      [|by left; apply Hold].
    apply expense_or_404_Ok in Hfind as (He & Hid & Hown).
    destruct (method req); [by left; apply Hold|].
    unfold form_item, to_float, check_amount.
    destruct (form_get "description" (form req)); simpl; [|by left; apply Hold].
    destruct (form_get "amount" (form req)) as [text|]; simpl; [|by left; apply Hold].
    destruct (float_of_str text) as [amount|]; simpl; [|by left; apply Hold].
    destruct (form_get "category" (form req)); simpl; [|by left; apply Hold].
    destruct (is_nan amount); simpl; [by left; apply Hold|].
    rewrite list_elem_of_fmap. intros (row & -> & Hrow). left.
    destruct (decide (Expense.id row = Expense.id e)) as [Heq|Hne]; simpl.
    + by exists e.
    + by exists row.
  - unfold view_expenses, login_required. destruct (current_user w); by left; apply Hold.
  - unfold delete_expense, login_required.
    destruct (current_user w) as [u|]; [|by left; apply Hold].
    unfold respond.
    destruct (expense_or_404 (Z.of_N id) (User.id u) (db w)) as [e|]; simpl;
      [|by left; apply Hold].
    rewrite list_elem_of_filter. intros [_ He']. by left; apply Hold.
  - unfold show_summary, login_required. destruct (current_user w); by left; apply Hold.
Qed.
End Provenance.

Lemma rows_keep_owner_and_date_witness :
  ∃ e, e ∈ expenses (db as_alice)
       ∧ Expense.id e = 1
       ∧ Expense.date e = Expense.date lunch
       ∧ Expense.user_id e = 1.
Proof.
  destruct (rows_keep_owner_and_date toy_hash toy_check toy_float kahan_sum
    (edit_expense_route 1)
    (post [("description", "brunch"); ("amount", "12.5"); ("category", "eating out")])
    as_alice (Expense.mk 1 "brunch" 12.5 "eating out" (Expense.date lunch) 1))
    as [Hold | (Hadd & _)]; [ | exact Hold | discriminate Hadd].
  vm_compute. left.
Defined.

(** ** Buckets *)

Lemma buckets_partition {A K} `{EqDecision K} (f : A → K) (ks : list K) (l : list A) :
  NoDup ks → (∀ x, x ∈ l → f x ∈ ks) →
  concat ((λ k, filter (λ x, f x = k) l) <$> ks) ≡ₚ l.
Proof.
  intros Hnd. revert l. induction Hnd as [|k ks Hk Hnd IH]; intros l Hall; csimpl.
  - destruct l as [|a l]; [done|]. specialize (Hall a). rewrite elem_of_nil in Hall.
    destruct Hall. by left.
  - etransitivity; [|apply (filter_app_complement (λ x, f x = k) l)].
    apply Permutation_app; [done|].
    assert ((λ k', filter (λ x, f x = k') l) <$> ks
            = (λ k', filter (λ x, f x = k') (filter (λ x, ¬ f x = k) l)) <$> ks)
      as ->.
    { apply Forall_fmap_ext_1, Forall_forall. intros k' Hk'.
      rewrite list_filter_filter. apply list_filter_iff. intros x.
      split; [|tauto]. intros <-. split; [done|].
      intros Heq. apply Hk. by rewrite <- Heq. }
    apply IH. intros x Hx. apply list_elem_of_filter in Hx as [Hne Hx].
    specialize (Hall x Hx). by apply elem_of_cons in Hall as [Heq|Hin].
Qed.

(** X19: the monthly totals count every expense once: the buckets, month
    after month, hold between them exactly the amounts of the expenses,
    none left out and none taken twice, and the total of a month is the
    reduction of its bucket. *)
Theorem monthly_buckets_partition (series_sum : list float → float)
    (es : list Expense.t) :
  let months := (monthly_totals series_sum es).*1 in
  monthly_totals series_sum es
  = (λ p, (p, series_sum (amounts_of_month p es))) <$> months
  ∧ concat ((λ p, amounts_of_month p es) <$> months) ≡ₚ Expense.amount <$> es.
Proof.
  intros months. split.
  - unfold months. rewrite monthly_totals_keys. unfold monthly_totals.
    apply list_fmap_ext. intros i p _. by rewrite bucket_month_rows.
  - unfold amounts_of_month.
    transitivity (Expense.amount <$>
      concat ((λ p, filter (λ e, to_period_M (Expense.date e) = p) es) <$> months)).
    + generalize months. intros ms.
      induction ms as [|p ps IH]; csimpl; [done|]. by rewrite fmap_app, IH.
    + apply fmap_Permutation, buckets_partition.
      * unfold months. rewrite monthly_totals_keys, merge_sort_Permutation.
        apply NoDup_remove_dups.
      * intros e He. unfold months. apply monthly_totals_keys_elem. by exists e.
Qed.
